(** * QUIC perf throughput server (src/perf/lib/ThroughputServer.cpp)

    A shallow embedding of [ThroughputServer]: its driver-facing methods
    [Init], [Start], [Wait] and its three event callbacks.  Every call the
    server makes to an object it does not own (the MsQuic API table, the
    listener, the [CountHelper] member [RefCount], the security
    configuration, the console) is recorded in a trace, and the value such a
    call returns is chosen by an environment that may look at the whole
    history of calls. *)

From Stdlib Require Import ZArith List String Bool Lia.
Import ListNotations.
Open Scope string_scope.
Open Scope list_scope.
Open Scope Z_scope.

(** ** Names the source takes from headers *)

(** [QUIC_STATUS] is an integer type whose values are platform constants. *)
Definition QUIC_STATUS := Z.

(** [HQUIC], [QUIC_EVENT*], [QUIC_SEC_CONFIG*]: opaque pointers. *)
Definition HQUIC := Z.
Definition Pointer := Z.

(** The constants, macros and helpers that ThroughputServer.cpp uses and
    that its headers (msquic.h, PerfHelpers.h, ThroughputCommon.h) declare.
    They are parameters of the development: no theorem depends on their
    values. *)
Class PerfHeaders := {
  QUIC_STATUS_SUCCESS : QUIC_STATUS;
  QUIC_STATUS_INVALID_PARAMETER : QUIC_STATUS;
  QUIC_FAILED : QUIC_STATUS -> bool;
  AF_UNSPEC : Z;
  QUIC_PARAM_LEVEL_CONNECTION : Z;
  QUIC_PARAM_CONN_DISABLE_1RTT_ENCRYPTION : Z;
  QUIC_STREAM_SHUTDOWN_FLAG_ABORT_SEND : Z;
  QUIC_STREAM_SHUTDOWN_FLAG_ABORT_RECEIVE : Z;
  THROUGHPUT_DEFAULT_PORT : Z;
  (** [IsArg(Arg, toTestAgainst)] *)
  IsArg : string -> string -> bool;
  (** [TryGetValue(argc, argv, name, &out)]: [Some v] when the option is
      present and [v] is stored through [out], [None] when [out] is left
      untouched. *)
  TryGetValue : Z -> list string -> string -> option Z
}.

(** [BOOLEAN value = TRUE; sizeof(value)] *)
Definition TRUE : Z := 1.
Definition sizeof_BOOLEAN : Z := 1.

(** Wrap-around of [uint32_t] arithmetic. *)
Definition u32 (x : Z) : Z := x mod 2 ^ 32.

(** ** Event types

    Each enum has the members the source names and one constructor for
    every other member of the header's enum. *)

Inductive QUIC_LISTENER_EVENT_TYPE :=
| QUIC_LISTENER_EVENT_NEW_CONNECTION
| QUIC_LISTENER_EVENT_other (tag : nat).

Inductive QUIC_CONNECTION_EVENT_TYPE :=
| QUIC_CONNECTION_EVENT_SHUTDOWN_COMPLETE
| QUIC_CONNECTION_EVENT_PEER_STREAM_STARTED
| QUIC_CONNECTION_EVENT_other (tag : nat).

Inductive QUIC_STREAM_EVENT_TYPE :=
| QUIC_STREAM_EVENT_PEER_SEND_ABORTED
| QUIC_STREAM_EVENT_PEER_RECEIVE_ABORTED
| QUIC_STREAM_EVENT_SHUTDOWN_COMPLETE
| QUIC_STREAM_EVENT_other (tag : nat).

Definition listener_type_eq_dec (a b : QUIC_LISTENER_EVENT_TYPE) : {a = b} + {a <> b}.
Proof. decide equality; apply Nat.eq_dec. Defined.

Definition connection_type_eq_dec (a b : QUIC_CONNECTION_EVENT_TYPE) : {a = b} + {a <> b}.
Proof. decide equality; apply Nat.eq_dec. Defined.

Definition stream_type_eq_dec (a b : QUIC_STREAM_EVENT_TYPE) : {a = b} + {a <> b}.
Proof. decide equality; apply Nat.eq_dec. Defined.

(** The event structs: a type tag and the union members the handlers read
    or write. *)
Record NEW_CONNECTION_t := {
  Connection : HQUIC;
  EventSecurityConfig : Pointer
}.

Record QUIC_LISTENER_EVENT := {
  ListenerEventType : QUIC_LISTENER_EVENT_TYPE;
  NEW_CONNECTION : NEW_CONNECTION_t
}.

Record PEER_STREAM_STARTED_t := {
  Stream : HQUIC
}.

Record QUIC_CONNECTION_EVENT := {
  ConnectionEventType : QUIC_CONNECTION_EVENT_TYPE;
  PEER_STREAM_STARTED : PEER_STREAM_STARTED_t
}.

Record QUIC_STREAM_EVENT := {
  StreamEventType : QUIC_STREAM_EVENT_TYPE
}.

(** ** Calls to collaborators *)

(** The lambdas handed to the library forward to one method of [this]. *)
Inductive CallbackHandler :=
| ToListenerCallback
| ToConnectionCallback
| ToStreamCallback.

Inductive Call :=
(* console *)
| WriteOutput (format : string) (args : list Z)
(* MsQuicListener *)
| Listener_Start (Family Port : Z) (Handler : CallbackHandler)
(* PerfSecurityConfig *)
| SecurityConfig_Initialize (argc : Z) (argv : list string) (Registration SelfSignedConfig : Pointer)
(* the MsQuic API table *)
| SetCallbackHandler (Handle : HQUIC) (Handler : CallbackHandler)
| SetParam (Handle : HQUIC) (Level Param BufferLength : Z) (Buffer : list Z)
| ConnectionClose (Handle : HQUIC)
| StreamShutdown (Handle : HQUIC) (Flags ErrorCode : Z)
| StreamClose (Handle : HQUIC)
(* CountHelper RefCount *)
| RefCount_Assign (StopEvent : Pointer)
| RefCount_AddItem
| RefCount_CompleteItem
| RefCount_Wait (Milliseconds : Z)
| RefCount_WaitForever.

(** What a call hands back to the server.  [RefCount.Wait] tells whether
    the count completed ([true]) or the timeout elapsed ([false]). *)
Definition resp (c : Call) : Type :=
  match c with
  | Listener_Start _ _ _ => QUIC_STATUS
  | SecurityConfig_Initialize _ _ _ _ => QUIC_STATUS
  | SetParam _ _ _ _ _ => QUIC_STATUS
  | StreamShutdown _ _ _ => QUIC_STATUS
  | RefCount_Wait _ => bool
  | _ => unit
  end.

Definition Trace := list Call.

(** The collaborators: an answer to every call, given the calls so far. *)
Definition Env := Trace -> forall c : Call, resp c.

(** ** The monad of server code

    [S] is the object the code mutates ([*this], or the in-out [Event]);
    [None] is a loop that ran out of fuel. *)
Definition M (S A : Type) : Type :=
  Env -> S -> Trace -> option (A * S * Trace).

Definition ret {S A} (a : A) : M S A :=
  fun _ s t => Some (a, s, t).

Definition bind {S A B} (m : M S A) (k : A -> M S B) : M S B :=
  fun env s t =>
    match m env s t with
    | Some (a, s', t') => k a env s' t'
    | None => None
    end.

Definition call {S} (c : Call) : M S (resp c) :=
  fun env s t => Some (env t c, s, t ++ [c]).

Definition get {S} : M S S :=
  fun _ s t => Some (s, s, t).

Definition put {S} (s : S) : M S unit :=
  fun _ _ t => Some (tt, s, t).

Definition out_of_fuel {S A} : M S A :=
  fun _ _ _ => None.

Declare Scope server_scope.
Delimit Scope server_scope with server.
Notation "x <- m ;; k" := (bind m (fun x => k))
  (at level 61, m at next level, right associativity) : server_scope.
Notation "m ;; k" := (bind m (fun _ => k))
  (at level 61, right associativity) : server_scope.
Open Scope server_scope.

(** ** C [switch]

    The body of a switch is the sequence of its labels and statements, the
    braces of inner blocks dropped: control jumps to the matching [case]
    label, else to [default], else past the switch, and then runs on
    through any further labels until a [break] or the end of the body. *)
Section Switch.
Context {L S : Type} (L_eq_dec : forall a b : L, {a = b} + {a <> b}).

Inductive Stmt :=
| Case (l : L)
| Default
| Do (m : M S unit)
| Break.

Fixpoint run_until_break (body : list Stmt) : M S unit :=
  match body with
  | [] => ret tt
  | Case _ :: rest => run_until_break rest
  | Default :: rest => run_until_break rest
  | Do m :: rest => m ;; run_until_break rest
  | Break :: _ => ret tt
  end.

Fixpoint find_case (v : L) (body : list Stmt) : option (list Stmt) :=
  match body with
  | [] => None
  | Case l :: rest => if L_eq_dec l v then Some rest else find_case v rest
  | _ :: rest => find_case v rest
  end.

Fixpoint find_default (body : list Stmt) : option (list Stmt) :=
  match body with
  | [] => None
  | Default :: rest => Some rest
  | _ :: rest => find_default rest
  end.

Definition switch (v : L) (body : list Stmt) : M S unit :=
  match find_case v body with
  | Some rest => run_until_break rest
  | None =>
      match find_default body with
      | Some rest => run_until_break rest
      | None => ret tt
      end
  end.
End Switch.

Arguments Stmt : clear implicits.

(** ** The server object *)

(** [MsQuicListener Listener]: what its constructor left behind. *)
Record MsQuicListener := {
  IsValid : bool;
  GetInitStatus : QUIC_STATUS
}.

(** The members of [ThroughputServer] that its methods read or write.
    [Port] is a [uint16_t], [NumberOfConnections] a [uint32_t]; the member
    [RefCount] is reached through the [RefCount_*] calls. *)
Record ThroughputServer := {
  Registration : Pointer;
  Listener : MsQuicListener;
  SelfSignedConfig : Pointer;
  SecurityConfig : Pointer;
  Port : Z;
  NumberOfConnections : Z
}.

Definition set_Port (v : Z) (this : ThroughputServer) : ThroughputServer :=
  {| Registration := Registration this;
     Listener := Listener this;
     SelfSignedConfig := SelfSignedConfig this;
     SecurityConfig := SecurityConfig this;
     Port := v;
     NumberOfConnections := NumberOfConnections this |}.

Definition set_NumberOfConnections (v : Z) (this : ThroughputServer) : ThroughputServer :=
  {| Registration := Registration this;
     Listener := Listener this;
     SelfSignedConfig := SelfSignedConfig this;
     SecurityConfig := SecurityConfig this;
     Port := Port this;
     NumberOfConnections := v |}.

(** [Event->NEW_CONNECTION.SecurityConfig = v] *)
Definition set_EventSecurityConfig (v : Pointer) (Event : QUIC_LISTENER_EVENT) : QUIC_LISTENER_EVENT :=
  {| ListenerEventType := ListenerEventType Event;
     NEW_CONNECTION :=
       {| Connection := Connection (NEW_CONNECTION Event);
          EventSecurityConfig := v |} |}.

(** The newline of a C string literal. *)
Definition LF : string := String (Ascii.ascii_of_nat 10) EmptyString.

Definition help_text : string :=
  String.concat LF
    [ "";
      "Throughput Server options:";
      "";
      "  -thumbprint:<cert_hash>     The hash or thumbprint of the certificate to use.";
      "  -cert_store:<store name>    The certificate store to search for the thumbprint in.";
      "  -machine_cert:<0/1>         Use the machine, or current user's, certificate store. (def:0)";
      "  -connections:<####>         The number of connections to create. (def:0)";
      "  -port:<####>                The UDP port of the server. (def:%u)";
      "";
      "" ].

Definition SetParam_failed_text : string :=
  String.append "MsQuic->SetParam (CONN_DISABLE_1RTT_ENCRYPTION) failed!" LF.

Arguments help_text : simpl never.
Arguments SetParam_failed_text : simpl never.

Section Server.
Context `{PerfHeaders}.

Definition PrintHelp {S} : M S unit :=
  call (WriteOutput help_text [THROUGHPUT_DEFAULT_PORT]).

(** [ThroughputServer::Init] *)
Definition Init (argc : Z) (argv : list string) : M ThroughputServer QUIC_STATUS :=
  if (0 <? argc) && (IsArg (nth 0 argv "") "?" || IsArg (nth 0 argv "") "help") then
    PrintHelp ;;
    ret QUIC_STATUS_INVALID_PARAMETER
  else
    this <- get ;;
    if negb (IsValid (Listener this)) then
      ret (GetInitStatus (Listener this))
    else
      match TryGetValue argc argv "port" with
      | Some v => this <- get ;; put (set_Port v this)
      | None => ret tt
      end ;;
      match TryGetValue argc argv "connections" with
      | Some v => this <- get ;; put (set_NumberOfConnections v this)
      | None => ret tt
      end ;;
      this <- get ;;
      Status <- call (SecurityConfig_Initialize argc argv (Registration this) (SelfSignedConfig this)) ;;
      if QUIC_FAILED Status then
        PrintHelp ;;
        ret Status
      else
        ret QUIC_STATUS_SUCCESS.

(** [for (uint32_t i = 0; i < NumberOfConnections; i++) RefCount.AddItem();]
    from the value [i] of the loop variable on. *)
Fixpoint AddItem_loop (fuel : nat) (i : Z) : M ThroughputServer unit :=
  match fuel with
  | O => out_of_fuel
  | S fuel' =>
      this <- get ;;
      if i <? NumberOfConnections this then
        call RefCount_AddItem ;;
        AddItem_loop fuel' (u32 (i + 1))
      else
        ret tt
  end.

(** [ThroughputServer::Start].  The local [Address] gets its family and
    its port set and is handed to [Listener.Start]. *)
Definition Start (fuel : nat) (StopEvent : Pointer) : M ThroughputServer QUIC_STATUS :=
  this <- get ;;
  Status <- call (Listener_Start AF_UNSPEC (Port this) ToListenerCallback) ;;
  if QUIC_FAILED Status then
    ret Status
  else
    call (RefCount_Assign StopEvent) ;;
    (if 0 <? NumberOfConnections this then
       AddItem_loop fuel 0
     else
       call RefCount_AddItem) ;;
    ret QUIC_STATUS_SUCCESS.

(** [ThroughputServer::Wait] *)
Definition Wait (Timeout : Z) : M ThroughputServer QUIC_STATUS :=
  (if 0 <? Timeout then
     _ <- call (RefCount_Wait Timeout) ;; ret tt
   else
     call RefCount_WaitForever) ;;
  ret QUIC_STATUS_SUCCESS.

(** [ThroughputServer::ListenerCallback] *)
Definition ListenerCallback (this : ThroughputServer) (ListenerHandle : HQUIC)
  : M QUIC_LISTENER_EVENT QUIC_STATUS :=
  Event <- get ;;
  switch listener_type_eq_dec (ListenerEventType Event)
    [ Case QUIC_LISTENER_EVENT_NEW_CONNECTION;
      Do (Event <- get ;;
          put (set_EventSecurityConfig (SecurityConfig this) Event) ;;
          Event <- get ;;
          call (SetCallbackHandler (Connection (NEW_CONNECTION Event)) ToConnectionCallback) ;;
          let value := TRUE in
          Status <- call (SetParam (Connection (NEW_CONNECTION Event))
                            QUIC_PARAM_LEVEL_CONNECTION
                            QUIC_PARAM_CONN_DISABLE_1RTT_ENCRYPTION
                            sizeof_BOOLEAN [value]) ;;
          if QUIC_FAILED Status then
            call (WriteOutput SetParam_failed_text [])
          else
            ret tt);
      Break ] ;;
  ret QUIC_STATUS_SUCCESS.

(** [ThroughputServer::ConnectionCallback] *)
Definition ConnectionCallback (this : ThroughputServer) (ConnectionHandle : HQUIC)
  : M QUIC_CONNECTION_EVENT QUIC_STATUS :=
  Event <- get ;;
  switch connection_type_eq_dec (ConnectionEventType Event)
    [ Case QUIC_CONNECTION_EVENT_SHUTDOWN_COMPLETE;
      Do (call (ConnectionClose ConnectionHandle));
      Do (if 0 <? NumberOfConnections this then
            call RefCount_CompleteItem
          else
            ret tt);
      Break;
      Case QUIC_CONNECTION_EVENT_PEER_STREAM_STARTED;
      Do (Event <- get ;;
          call (SetCallbackHandler (Stream (PEER_STREAM_STARTED Event)) ToStreamCallback));
      Break;
      Default;
      Break ] ;;
  ret QUIC_STATUS_SUCCESS.

(** [ThroughputServer::StreamCallback].  The [default:] label stands
    inside the block opened after [case QUIC_STREAM_EVENT_SHUTDOWN_COMPLETE:],
    behind that block's [break]. *)
Definition StreamCallback (this : ThroughputServer) (StreamHandle : HQUIC)
  : M QUIC_STREAM_EVENT QUIC_STATUS :=
  Event <- get ;;
  switch stream_type_eq_dec (StreamEventType Event)
    [ Case QUIC_STREAM_EVENT_PEER_SEND_ABORTED;
      Case QUIC_STREAM_EVENT_PEER_RECEIVE_ABORTED;
      Do (_ <- call (StreamShutdown StreamHandle
                       (Z.lor QUIC_STREAM_SHUTDOWN_FLAG_ABORT_SEND
                              QUIC_STREAM_SHUTDOWN_FLAG_ABORT_RECEIVE)
                       0) ;;
          ret tt);
      Break;
      Case QUIC_STREAM_EVENT_SHUTDOWN_COMPLETE;
      Do (call (StreamClose StreamHandle));
      Break;
      Default;
      Break ] ;;
  ret QUIC_STATUS_SUCCESS.

End Server.

(** ** Events of one object, one after the other

    The transport library hands the events of one connection or stream to
    the callback in sequence; the status the callback returns and the
    contents it leaves in the event go back to the library. *)
Fixpoint deliver {S} (callback : M S QUIC_STATUS) (events : list S)
  (env : Env) (t : Trace) : option Trace :=
  match events with
  | [] => Some t
  | Event :: rest =>
      match callback env Event t with
      | Some (_, _, t') => deliver callback rest env t'
      | None => None
      end
  end.

(** ** Observing a trace *)

Definition count_calls (p : Call -> bool) (t : Trace) : nat :=
  List.length (filter p t).

Definition is_Listener_Start (c : Call) : bool :=
  match c with Listener_Start _ _ _ => true | _ => false end.

Definition is_AddItem (c : Call) : bool :=
  match c with RefCount_AddItem => true | _ => false end.

Definition is_CompleteItem (c : Call) : bool :=
  match c with RefCount_CompleteItem => true | _ => false end.

Definition is_ConnectionClose (h : HQUIC) (c : Call) : bool :=
  match c with ConnectionClose h' => h' =? h | _ => false end.

Definition is_StreamClose (h : HQUIC) (c : Call) : bool :=
  match c with StreamClose h' => h' =? h | _ => false end.

Definition any_StreamClose (c : Call) : bool :=
  match c with StreamClose _ => true | _ => false end.

Definition is_stream_shutdown_complete (Event : QUIC_STREAM_EVENT) : bool :=
  if stream_type_eq_dec (StreamEventType Event) QUIC_STREAM_EVENT_SHUTDOWN_COMPLETE
  then true else false.

(** The first argument asks for help: the test [Init] starts with. *)
Definition requests_help `{PerfHeaders} (argc : Z) (argv : list string) : bool :=
  (0 <? argc) && (IsArg (nth 0 argv "") "?" || IsArg (nth 0 argv "") "help").

(** The status a run hands back to its caller. *)
Definition returned {S A} (r : option (A * S * Trace)) : option A :=
  option_map (fun x => fst (fst x)) r.

(** The members of [*this] once [Init] has read [port] and [connections]
    from the arguments. *)
Definition parsed `{PerfHeaders} (argc : Z) (argv : list string) (this : ThroughputServer)
  : ThroughputServer :=
  let this1 :=
    match TryGetValue argc argv "port" with
    | Some v => set_Port v this
    | None => this
    end in
  match TryGetValue argc argv "connections" with
  | Some v => set_NumberOfConnections v this1
  | None => this1
  end.

(** ** The lambdas registered with the library

    [Listener.Start] and [SetCallbackHandler] are handed a lambda that
    casts [Context] back to the server and forwards to one of its
    callbacks. *)
Definition ListenerHandler `{PerfHeaders} (Handle : HQUIC) (Context : ThroughputServer)
  : M QUIC_LISTENER_EVENT QUIC_STATUS :=
  ListenerCallback Context Handle.

Definition ConnectionHandler `{PerfHeaders} (Conn : HQUIC) (Context : ThroughputServer)
  : M QUIC_CONNECTION_EVENT QUIC_STATUS :=
  ConnectionCallback Context Conn.

Definition StreamHandler `{PerfHeaders} (Stream : HQUIC) (Context : ThroughputServer)
  : M QUIC_STREAM_EVENT QUIC_STATUS :=
  StreamCallback Context Stream.

(** One invocation of a registered lambda by the library. *)
Inductive Delivery :=
| ListenerEvent (Handle : HQUIC) (Event : QUIC_LISTENER_EVENT)
| ConnectionEvent (Conn : HQUIC) (Event : QUIC_CONNECTION_EVENT)
| StreamEvent (Stream : HQUIC) (Event : QUIC_STREAM_EVENT).

(** The status the lambda returns and the trace it leaves. *)
Definition handle_delivery `{PerfHeaders} (Context : ThroughputServer) (d : Delivery)
  (env : Env) (t : Trace) : option (QUIC_STATUS * Trace) :=
  match d with
  | ListenerEvent Handle Event =>
      option_map (fun r => (fst (fst r), snd r)) (ListenerHandler Handle Context env Event t)
  | ConnectionEvent Conn Event =>
      option_map (fun r => (fst (fst r), snd r)) (ConnectionHandler Conn Context env Event t)
  | StreamEvent Stream Event =>
      option_map (fun r => (fst (fst r), snd r)) (StreamHandler Stream Context env Event t)
  end.

(** Invocations of the lambdas, in the order in which they run. *)
Fixpoint serve `{PerfHeaders} (Context : ThroughputServer) (ds : list Delivery)
  (env : Env) (t : Trace) : option (list QUIC_STATUS * Trace) :=
  match ds with
  | [] => Some ([], t)
  | d :: rest =>
      match handle_delivery Context d env t with
      | Some (status, t') =>
          match serve Context rest env t' with
          | Some (statuses, t'') => Some (status :: statuses, t'')
          | None => None
          end
      | None => None
      end
  end.

(** What a run added to the trace it started from. *)
Definition new_calls (t t' : Trace) : Trace := skipn (List.length t) t'.

Definition delivery_calls `{PerfHeaders} (Context : ThroughputServer) (env : Env)
  (t : Trace) (d : Delivery) : Trace :=
  match handle_delivery Context d env t with
  | Some (_, t') => new_calls t t'
  | None => []
  end.

Fixpoint serve_calls `{PerfHeaders} (Context : ThroughputServer) (env : Env)
  (t : Trace) (ds : list Delivery) : Trace :=
  match ds with
  | [] => []
  | d :: rest =>
      delivery_calls Context env t d ++
      serve_calls Context env (t ++ delivery_calls Context env t d) rest
  end.

(** *** Observing deliveries and further calls *)

Definition count_deliveries (p : Delivery -> bool) (ds : list Delivery) : nat :=
  List.length (filter p ds).

Definition is_new_connection (d : Delivery) : bool :=
  match d with
  | ListenerEvent _ Event =>
      if listener_type_eq_dec (ListenerEventType Event) QUIC_LISTENER_EVENT_NEW_CONNECTION
      then true else false
  | _ => false
  end.

Definition is_connection_shutdown (d : Delivery) : bool :=
  match d with
  | ConnectionEvent _ Event =>
      if connection_type_eq_dec (ConnectionEventType Event)
           QUIC_CONNECTION_EVENT_SHUTDOWN_COMPLETE
      then true else false
  | _ => false
  end.

Definition is_connection_shutdown_of (h : HQUIC) (d : Delivery) : bool :=
  match d with
  | ConnectionEvent Conn _ => (Conn =? h) && is_connection_shutdown d
  | _ => false
  end.

Definition is_stream_start (d : Delivery) : bool :=
  match d with
  | ConnectionEvent _ Event =>
      if connection_type_eq_dec (ConnectionEventType Event)
           QUIC_CONNECTION_EVENT_PEER_STREAM_STARTED
      then true else false
  | _ => false
  end.

Definition is_stream_shutdown_of (h : HQUIC) (d : Delivery) : bool :=
  match d with
  | StreamEvent Stream Event => (Stream =? h) && is_stream_shutdown_complete Event
  | _ => false
  end.

Definition is_stream_abort_of (h : HQUIC) (d : Delivery) : bool :=
  match d with
  | StreamEvent Stream Event =>
      (Stream =? h) &&
      match StreamEventType Event with
      | QUIC_STREAM_EVENT_PEER_SEND_ABORTED
      | QUIC_STREAM_EVENT_PEER_RECEIVE_ABORTED => true
      | _ => false
      end
  | _ => false
  end.

Definition is_peer_stream_started (Event : QUIC_CONNECTION_EVENT) : bool :=
  if connection_type_eq_dec (ConnectionEventType Event)
       QUIC_CONNECTION_EVENT_PEER_STREAM_STARTED
  then true else false.

Definition is_StreamShutdown (h : HQUIC) (c : Call) : bool :=
  match c with StreamShutdown h' _ _ => h' =? h | _ => false end.

Definition CallbackHandler_eqb (a b : CallbackHandler) : bool :=
  match a, b with
  | ToListenerCallback, ToListenerCallback
  | ToConnectionCallback, ToConnectionCallback
  | ToStreamCallback, ToStreamCallback => true
  | _, _ => false
  end.

(** [SetCallbackHandler] of [Handler] on the handle [h]. *)
Definition is_install_on (h : HQUIC) (Handler : CallbackHandler) (c : Call) : bool :=
  match c with
  | SetCallbackHandler h' Handler' => (h' =? h) && CallbackHandler_eqb Handler' Handler
  | _ => false
  end.

(** [SetParam] on the handle [h]. *)
Definition is_SetParam_on (h : HQUIC) (c : Call) : bool :=
  match c with SetParam h' _ _ _ _ => h' =? h | _ => false end.

(** A new-connection event that carries the connection [h]. *)
Definition is_new_connection_of (h : HQUIC) (d : Delivery) : bool :=
  match d with
  | ListenerEvent _ Event =>
      (Connection (NEW_CONNECTION Event) =? h) && is_new_connection d
  | _ => false
  end.

(** A peer-stream-started event that carries the stream [h]. *)
Definition is_stream_start_of (h : HQUIC) (d : Delivery) : bool :=
  match d with
  | ConnectionEvent _ Event =>
      (Stream (PEER_STREAM_STARTED Event) =? h) && is_stream_start d
  | _ => false
  end.



(** [RefCount.Wait] and [RefCount.WaitForever]: the calls that block. *)
Definition is_wait (c : Call) : bool :=
  match c with RefCount_Wait _ | RefCount_WaitForever => true | _ => false end.

(** The calls of [Init] and [Start]: the security configuration, the
    listener, the assignment of [RefCount] and [RefCount.AddItem]. *)
Definition is_startup (c : Call) : bool :=
  match c with
  | SecurityConfig_Initialize _ _ _ _ | Listener_Start _ _ _
  | RefCount_Assign _ | RefCount_AddItem => true
  | _ => false
  end.

(** Any call on the member [RefCount]. *)
Definition is_RefCount_call (c : Call) : bool :=
  match c with
  | RefCount_Assign _ | RefCount_AddItem | RefCount_CompleteItem
  | RefCount_Wait _ | RefCount_WaitForever => true
  | _ => false
  end.

(** ** The completion tracker *)

Module CompletionTracker.

(** Modelled from the spec: the CompletionTracker ([CountHelper], declared
    in PerfHelpers.h, which is not among the sources).  Its state is
    {registered, remaining, signal}; [addItem] increments [registered] and
    [remaining]; [completeItem] decrements [remaining], fails fatally when
    [remaining] is already 0, and sets the signal when [remaining] becomes
    0. *)
Record state := {
  registered : Z;
  remaining : Z;
  signal : bool
}.

Inductive outcome :=
| Running (s : state)
| FatalAbort.

(** Modelled from the spec: [configure(stopSignal)], before any [addItem]:
    nothing registered, the signal not set. *)
Definition configure : state :=
  {| registered := 0; remaining := 0; signal := false |}.

(** Modelled from the spec: [addItem()] of the CompletionTracker. *)
Definition addItem (s : state) : state :=
  {| registered := registered s + 1;
     remaining := remaining s + 1;
     signal := signal s |}.

(** Modelled from the spec: [completeItem()] of the CompletionTracker. *)
Definition completeItem (s : state) : outcome :=
  if remaining s =? 0 then
    FatalAbort
  else
    Running {| registered := registered s;
               remaining := remaining s - 1;
               signal := if remaining s - 1 =? 0 then true else signal s |}.

Inductive op :=
| AddItem
| CompleteItem.

(** A sequence of tracker operations; the fatal abort ends the run. *)
Fixpoint run (ops : list op) (s : state) : outcome :=
  match ops with
  | [] => Running s
  | AddItem :: rest => run rest (addItem s)
  | CompleteItem :: rest =>
      match completeItem s with
      | Running s' => run rest s'
      | FatalAbort => FatalAbort
      end
  end.

Definition is_add (o : op) : bool :=
  match o with AddItem => true | CompleteItem => false end.

Definition is_complete (o : op) : bool :=
  match o with AddItem => false | CompleteItem => true end.

Definition adds (ops : list op) : Z := Z.of_nat (List.length (filter is_add ops)).
Definition completes (ops : list op) : Z := Z.of_nat (List.length (filter is_complete ops)).

End CompletionTracker.

(** ** Concrete inputs *)

(** One choice of header values, to run the model on concrete inputs:
    status 0 is success, positive statuses are failures, an argument
    matches a name when the name follows its first character. *)
Definition example_headers : PerfHeaders :=
  {| QUIC_STATUS_SUCCESS := 0;
     QUIC_STATUS_INVALID_PARAMETER := 22;
     QUIC_FAILED := fun s => 0 <? s;
     AF_UNSPEC := 0;
     QUIC_PARAM_LEVEL_CONNECTION := 3;
     QUIC_PARAM_CONN_DISABLE_1RTT_ENCRYPTION := 21;
     QUIC_STREAM_SHUTDOWN_FLAG_ABORT_SEND := 2;
     QUIC_STREAM_SHUTDOWN_FLAG_ABORT_RECEIVE := 4;
     THROUGHPUT_DEFAULT_PORT := 4433;
     IsArg := fun Arg name =>
       match Arg with
       | EmptyString => false
       | String _ tail => String.prefix name tail
       end;
     TryGetValue := fun _ _ _ => None |}.

(** Collaborators that answer every status-returning call with [status]
    and every bounded wait with [completed]. *)
Definition env_const (status : QUIC_STATUS) (completed : bool) : Env :=
  fun _ c =>
    match c return resp c with
    | WriteOutput _ _ => tt
    | Listener_Start _ _ _ => status
    | SecurityConfig_Initialize _ _ _ _ => status
    | SetCallbackHandler _ _ => tt
    | SetParam _ _ _ _ _ => status
    | ConnectionClose _ => tt
    | StreamShutdown _ _ _ => status
    | StreamClose _ => tt
    | RefCount_Assign _ => tt
    | RefCount_AddItem => tt
    | RefCount_CompleteItem => tt
    | RefCount_Wait _ => completed
    | RefCount_WaitForever => tt
    end.

Definition example_server (connections : Z) : ThroughputServer :=
  {| Registration := 1;
     Listener := {| IsValid := true; GetInitStatus := 0 |};
     SelfSignedConfig := 2;
     SecurityConfig := 3;
     Port := 4433;
     NumberOfConnections := connections |}.

Definition stream_event (ty : QUIC_STREAM_EVENT_TYPE) : QUIC_STREAM_EVENT :=
  {| StreamEventType := ty |}.

Definition connection_event (ty : QUIC_CONNECTION_EVENT_TYPE) (stream : HQUIC)
  : QUIC_CONNECTION_EVENT :=
  {| ConnectionEventType := ty; PEER_STREAM_STARTED := {| Stream := stream |} |}.

Definition listener_event (ty : QUIC_LISTENER_EVENT_TYPE) (connection : HQUIC)
  : QUIC_LISTENER_EVENT :=
  {| ListenerEventType := ty;
     NEW_CONNECTION := {| Connection := connection; EventSecurityConfig := 0 |} |}.

(** Header values whose [TryGetValue] finds the given [port] and
    [connections] options. *)
Definition example_headers_args (port connections : option Z) : PerfHeaders :=
  {| QUIC_STATUS_SUCCESS := 0;
     QUIC_STATUS_INVALID_PARAMETER := 22;
     QUIC_FAILED := fun s => 0 <? s;
     AF_UNSPEC := 0;
     QUIC_PARAM_LEVEL_CONNECTION := 3;
     QUIC_PARAM_CONN_DISABLE_1RTT_ENCRYPTION := 21;
     QUIC_STREAM_SHUTDOWN_FLAG_ABORT_SEND := 2;
     QUIC_STREAM_SHUTDOWN_FLAG_ABORT_RECEIVE := 4;
     THROUGHPUT_DEFAULT_PORT := 4433;
     IsArg := fun Arg name =>
       match Arg with
       | EmptyString => false
       | String _ tail => String.prefix name tail
       end;
     TryGetValue := fun _ _ name =>
       if String.eqb name "port" then port
       else if String.eqb name "connections" then connections
       else None |}.

(** Two connections, one stream each: accepted, used and shut down. *)
Definition example_deliveries : list Delivery :=
  [ ListenerEvent 1 (listener_event QUIC_LISTENER_EVENT_NEW_CONNECTION 10);
    ListenerEvent 1 (listener_event QUIC_LISTENER_EVENT_NEW_CONNECTION 20);
    ConnectionEvent 10 (connection_event QUIC_CONNECTION_EVENT_PEER_STREAM_STARTED 11);
    ConnectionEvent 20 (connection_event QUIC_CONNECTION_EVENT_PEER_STREAM_STARTED 21);
    StreamEvent 11 (stream_event QUIC_STREAM_EVENT_PEER_SEND_ABORTED);
    StreamEvent 21 (stream_event (QUIC_STREAM_EVENT_other 0));
    StreamEvent 11 (stream_event QUIC_STREAM_EVENT_SHUTDOWN_COMPLETE);
    StreamEvent 21 (stream_event QUIC_STREAM_EVENT_SHUTDOWN_COMPLETE);
    ConnectionEvent 10 (connection_event QUIC_CONNECTION_EVENT_SHUTDOWN_COMPLETE 0);
    ConnectionEvent 20 (connection_event QUIC_CONNECTION_EVENT_SHUTDOWN_COMPLETE 0) ].

(** * Facts *)

(** Unfold one method down to the monad's functions. *)
Ltac step_server :=
  repeat progress (cbv [switch bind get put call ret PrintHelp]; cbn).

(** Bring a trace to the form [t ++ [c1; ...; cn]]. *)
Ltac norm_trace :=
  repeat rewrite <- app_assoc; cbn [app]; repeat rewrite app_nil_r.

(** An event type that differs from itself. *)
Ltac absurd_type :=
  exfalso; match goal with Hne : ?x <> ?x |- _ => apply Hne; reflexivity end.

Lemma count_calls_app (p : Call -> bool) (t1 t2 : Trace) :
  count_calls p (t1 ++ t2) = (count_calls p t1 + count_calls p t2)%nat.
Proof.
  unfold count_calls. now rewrite filter_app, length_app.
Qed.

Lemma count_calls_repeat_AddItem (n : nat) :
  count_calls is_AddItem (repeat RefCount_AddItem n) = n.
Proof.
  unfold count_calls.
  induction n as [|n IH]; cbn; [reflexivity | now rewrite IH].
Qed.

Section ServerFacts.
Context `{PerfHeaders}.
Variables (env : Env) (this : ThroughputServer).

(** ** The callbacks, event by event *)

Lemma StreamCallback_run (StreamHandle : HQUIC) (Event : QUIC_STREAM_EVENT) (t : Trace) :
  StreamCallback this StreamHandle env Event t =
  Some (QUIC_STATUS_SUCCESS, Event,
        t ++ match StreamEventType Event with
             | QUIC_STREAM_EVENT_PEER_SEND_ABORTED
             | QUIC_STREAM_EVENT_PEER_RECEIVE_ABORTED =>
                 [StreamShutdown StreamHandle
                    (Z.lor QUIC_STREAM_SHUTDOWN_FLAG_ABORT_SEND
                           QUIC_STREAM_SHUTDOWN_FLAG_ABORT_RECEIVE) 0]
             | QUIC_STREAM_EVENT_SHUTDOWN_COMPLETE => [StreamClose StreamHandle]
             | QUIC_STREAM_EVENT_other _ => []
             end).
Proof.
  destruct Event as [[ | | | tag]]; unfold StreamCallback; step_server;
    norm_trace; reflexivity.
Qed.

Lemma ConnectionCallback_run (ConnectionHandle : HQUIC) (Event : QUIC_CONNECTION_EVENT) (t : Trace) :
  ConnectionCallback this ConnectionHandle env Event t =
  Some (QUIC_STATUS_SUCCESS, Event,
        t ++ match ConnectionEventType Event with
             | QUIC_CONNECTION_EVENT_SHUTDOWN_COMPLETE =>
                 ConnectionClose ConnectionHandle ::
                 (if 0 <? NumberOfConnections this then [RefCount_CompleteItem] else [])
             | QUIC_CONNECTION_EVENT_PEER_STREAM_STARTED =>
                 [SetCallbackHandler (Stream (PEER_STREAM_STARTED Event)) ToStreamCallback]
             | QUIC_CONNECTION_EVENT_other _ => []
             end).
Proof.
  destruct Event as [[ | | tag] started]; unfold ConnectionCallback; step_server;
    try destruct (0 <? NumberOfConnections this); step_server;
    norm_trace; reflexivity.
Qed.

Lemma ListenerCallback_run (ListenerHandle : HQUIC) (Event : QUIC_LISTENER_EVENT) (t : Trace) :
  ListenerCallback this ListenerHandle env Event t =
  match ListenerEventType Event with
  | QUIC_LISTENER_EVENT_NEW_CONNECTION =>
      let Conn := Connection (NEW_CONNECTION Event) in
      let install := SetCallbackHandler Conn ToConnectionCallback in
      let disable :=
        SetParam Conn QUIC_PARAM_LEVEL_CONNECTION
          QUIC_PARAM_CONN_DISABLE_1RTT_ENCRYPTION sizeof_BOOLEAN [TRUE] in
      Some (QUIC_STATUS_SUCCESS,
            set_EventSecurityConfig (SecurityConfig this) Event,
            t ++ install :: disable ::
                 (if QUIC_FAILED (env (t ++ [install]) disable)
                  then [WriteOutput SetParam_failed_text []] else []))
  | QUIC_LISTENER_EVENT_other _ => Some (QUIC_STATUS_SUCCESS, Event, t)
  end.
Proof.
  destruct Event as [[ | tag] [Conn Sec]]; unfold ListenerCallback; step_server;
    [ | reflexivity ].
  destruct (QUIC_FAILED _); step_server; norm_trace; reflexivity.
Qed.

(** ** The driver-facing methods *)

Lemma Wait_run (Timeout : Z) (t : Trace) :
  Wait Timeout env this t =
  Some (QUIC_STATUS_SUCCESS, this,
        t ++ [if 0 <? Timeout then RefCount_Wait Timeout else RefCount_WaitForever]).
Proof.
  unfold Wait. destruct (0 <? Timeout); step_server; reflexivity.
Qed.

Lemma AddItem_loop_run (fuel : nat) :
  forall (i : Z) (t : Trace),
    0 <= i <= NumberOfConnections this ->
    NumberOfConnections this < 2 ^ 32 ->
    (Z.to_nat (NumberOfConnections this - i) < fuel)%nat ->
    AddItem_loop fuel i env this t =
    Some (tt, this, t ++ repeat RefCount_AddItem (Z.to_nat (NumberOfConnections this - i))).
Proof.
  induction fuel as [|fuel IH]; intros i t Hi HN Hfuel; [lia|].
  cbn [AddItem_loop]. cbv [bind get call ret].
  destruct (i <? NumberOfConnections this) eqn:Hlt.
  - apply Z.ltb_lt in Hlt.
    assert (Hwrap : u32 (i + 1) = i + 1) by (apply Z.mod_small; lia).
    rewrite Hwrap, IH by lia.
    replace (Z.to_nat (NumberOfConnections this - i))
      with (S (Z.to_nat (NumberOfConnections this - (i + 1)))) by lia.
    cbn [repeat]. now rewrite <- app_assoc.
  - apply Z.ltb_ge in Hlt.
    replace (NumberOfConnections this - i) with 0 by lia.
    cbn. now rewrite app_nil_r.
Qed.

Lemma Start_run_bind_failed (fuel : nat) (StopEvent : Pointer) (t : Trace) :
  let bound := Listener_Start AF_UNSPEC (Port this) ToListenerCallback in
  QUIC_FAILED (env t bound) = true ->
  Start fuel StopEvent env this t = Some (env t bound, this, t ++ [bound]).
Proof.
  intros bound Hfailed. unfold Start. cbv [bind get call ret].
  fold bound. now rewrite Hfailed.
Qed.

Lemma Start_run_bound (fuel : nat) (StopEvent : Pointer) (t : Trace) :
  let bound := Listener_Start AF_UNSPEC (Port this) ToListenerCallback in
  QUIC_FAILED (env t bound) = false ->
  0 <= NumberOfConnections this < 2 ^ 32 ->
  (Z.to_nat (NumberOfConnections this) < fuel)%nat ->
  Start fuel StopEvent env this t =
  Some (QUIC_STATUS_SUCCESS, this,
        t ++ bound :: RefCount_Assign StopEvent ::
             repeat RefCount_AddItem
               (if 0 <? NumberOfConnections this
                then Z.to_nat (NumberOfConnections this) else 1%nat)).
Proof.
  intros bound Hok HN Hfuel. unfold Start. cbv [bind get call ret].
  fold bound. rewrite Hok.
  destruct (0 <? NumberOfConnections this).
  - rewrite AddItem_loop_run by (rewrite ?Z.sub_0_r; lia).
    rewrite Z.sub_0_r. now norm_trace.
  - now norm_trace.
Qed.

Lemma Init_run (argc : Z) (argv : list string) (t : Trace) :
  let help := WriteOutput help_text [THROUGHPUT_DEFAULT_PORT] in
  let init :=
    SecurityConfig_Initialize argc argv (Registration this) (SelfSignedConfig this) in
  Init argc argv env this t =
  if requests_help argc argv then
    Some (QUIC_STATUS_INVALID_PARAMETER, this, t ++ [help])
  else if negb (IsValid (Listener this)) then
    Some (GetInitStatus (Listener this), this, t)
  else if QUIC_FAILED (env t init) then
    Some (env t init, parsed argc argv this, t ++ [init; help])
  else
    Some (QUIC_STATUS_SUCCESS, parsed argc argv this, t ++ [init]).
Proof.
  intros help init. unfold Init, requests_help, parsed.
  destruct (_ && _); [reflexivity|].
  cbv [bind get]. destruct (negb _); [reflexivity|].
  destruct (TryGetValue argc argv "port"), (TryGetValue argc argv "connections");
    cbv [bind get put call ret PrintHelp]; cbn [Registration SelfSignedConfig
      set_Port set_NumberOfConnections]; fold init help;
    destruct (QUIC_FAILED (env t init)); norm_trace; reflexivity.
Qed.

End ServerFacts.

(** ** Events in sequence *)

Section DeliveryFacts.
Context `{PerfHeaders}.
Variables (env : Env) (this : ThroughputServer) (StreamHandle : HQUIC).

(** Stream-close calls are as many as shutdown-complete events. *)
Lemma deliver_StreamCallback (events : list QUIC_STREAM_EVENT) :
  forall t : Trace,
  exists calls,
    deliver (StreamCallback this StreamHandle) events env t = Some (t ++ calls) /\
    count_calls any_StreamClose calls =
      List.length (filter is_stream_shutdown_complete events) /\
    count_calls (is_StreamClose StreamHandle) calls =
      List.length (filter is_stream_shutdown_complete events).
Proof.
  induction events as [|Event rest IH]; intros t; cbn [deliver].
  - exists []. now rewrite app_nil_r.
  - rewrite StreamCallback_run.
    match goal with |- context [t ++ ?new] => set (now := new) end.
    destruct (IH (t ++ now)) as (calls & Hrun & Hany & Hmine).
    exists (now ++ calls). rewrite Hrun, app_assoc. split; [reflexivity|].
    rewrite !count_calls_app, Hany, Hmine. subst now.
    destruct Event as [[ | | | tag]]; cbn -[Z.eqb]; rewrite ?Z.eqb_refl; auto.
Qed.

End DeliveryFacts.

(** ** The completion tracker *)

Module TrackerFacts.
Import CompletionTracker.

Lemma adds_cons (o : op) (ops : list op) :
  adds (o :: ops) = (if is_add o then 1 else 0) + adds ops.
Proof. unfold adds. cbn. destruct (is_add o); cbn [List.length]; lia. Qed.

Lemma completes_cons (o : op) (ops : list op) :
  completes (o :: ops) = (if is_complete o then 1 else 0) + completes ops.
Proof. unfold completes. cbn. destruct (is_complete o); cbn [List.length]; lia. Qed.

Lemma completeItem_running (s s' : state) :
  completeItem s = Running s' ->
  remaining s <> 0 /\ remaining s' = remaining s - 1 /\ registered s' = registered s.
Proof.
  unfold completeItem. destruct (remaining s =? 0) eqn:E; [discriminate|].
  apply Z.eqb_neq in E. intros [= <-]. cbn. auto.
Qed.

Lemma run_app (ops1 ops2 : list op) :
  forall s,
    run (ops1 ++ ops2) s =
    match run ops1 s with
    | Running s' => run ops2 s'
    | FatalAbort => FatalAbort
    end.
Proof.
  induction ops1 as [|[|] ops1 IH]; intros s; cbn; auto.
  destruct (completeItem s); auto.
Qed.

(** While the run goes on, [remaining] is what was added less what was
    completed, and is not negative. *)
Lemma run_running (ops : list op) :
  forall s s',
    0 <= remaining s ->
    run ops s = Running s' ->
    remaining s' = remaining s + adds ops - completes ops /\ 0 <= remaining s'.
Proof.
  induction ops as [|[|] ops IH]; intros s s' Hs Hrun; cbn in Hrun.
  - injection Hrun as <-. unfold adds, completes. cbn. lia.
  - apply IH in Hrun; [|cbn; lia].
    rewrite adds_cons, completes_cons.
    cbn [is_add is_complete remaining addItem] in *. lia.
  - destruct (completeItem s) as [s1|] eqn:Hc; [|discriminate].
    apply completeItem_running in Hc. apply IH in Hrun; [|lia].
    rewrite adds_cons, completes_cons.
    cbn [is_add is_complete remaining addItem] in *. lia.
Qed.

Lemma run_underflow (ops : list op) :
  forall s,
    0 <= remaining s ->
    remaining s + adds ops < completes ops ->
    run ops s = FatalAbort.
Proof.
  intros s Hs Hless. destruct (run ops s) as [s'|] eqn:Hrun; [|reflexivity].
  apply run_running in Hrun; lia.
Qed.

End TrackerFacts.

(** * The specification, claim by claim *)

Section Claims.
Context `{PerfHeaders}.

(** C1. Once [Listener.Start] has succeeded, [Start] registers the
    configured number of connections with the tracker, one [AddItem] call
    each, when that number is positive, and one sentinel item when it is
    zero; it then returns success.  Any fuel above the connection count
    lets the loop finish. *)
Theorem Start_registers_expected_items
  (env : Env) (this : ThroughputServer) (StopEvent : Pointer) (t : Trace) (fuel : nat) :
  let N := NumberOfConnections this in
  let bound := Listener_Start AF_UNSPEC (Port this) ToListenerCallback in
  0 <= N < 2 ^ 32 ->
  QUIC_FAILED (env t bound) = false ->
  (Z.to_nat N < fuel)%nat ->
  exists calls,
    Start fuel StopEvent env this t =
      Some (QUIC_STATUS_SUCCESS, this, t ++ bound :: RefCount_Assign StopEvent :: calls) /\
    Forall (eq RefCount_AddItem) calls /\
    (0 < N -> Z.of_nat (count_calls is_AddItem calls) = N) /\
    (N = 0 -> count_calls is_AddItem calls = 1%nat).
Proof.
  intros N bound HN Hok Hfuel.
  eexists. split; [apply Start_run_bound; assumption|].
  fold N. split; [apply Forall_forall; intros c Hc; now apply repeat_spec in Hc|].
  rewrite count_calls_repeat_AddItem.
  split; intros HN'.
  - apply Z.ltb_lt in HN' as ->. lia.
  - rewrite HN'. reflexivity.
Qed.

(** C2. On the connection's shutdown-complete event the handler closes the
    connection handle exactly once and reports exactly one completion to
    the tracker if and only if the configured connection count is greater
    than 0; with a count of 0 it reports none. *)
Theorem ConnectionCallback_shutdown_complete
  (env : Env) (this : ThroughputServer) (ConnectionHandle : HQUIC)
  (Event : QUIC_CONNECTION_EVENT) (t : Trace) :
  ConnectionEventType Event = QUIC_CONNECTION_EVENT_SHUTDOWN_COMPLETE ->
  exists calls,
    ConnectionCallback this ConnectionHandle env Event t =
      Some (QUIC_STATUS_SUCCESS, Event, t ++ ConnectionClose ConnectionHandle :: calls) /\
    count_calls (is_ConnectionClose ConnectionHandle)
      (ConnectionClose ConnectionHandle :: calls) = 1%nat /\
    (count_calls is_CompleteItem calls = 1%nat <-> 0 < NumberOfConnections this) /\
    (NumberOfConnections this = 0 -> calls = []) /\
    (0 < NumberOfConnections this -> calls = [RefCount_CompleteItem]).
Proof.
  intros Hty. rewrite ConnectionCallback_run, Hty.
  eexists. split; [reflexivity|].
  destruct (0 <? NumberOfConnections this) eqn:HN;
    [apply Z.ltb_lt in HN | apply Z.ltb_ge in HN];
    cbn -[Z.eqb]; rewrite Z.eqb_refl; cbn;
    repeat split; intros; try reflexivity; try lia; try discriminate.
Qed.

(** C4. On a peer-send-aborted or peer-receive-aborted event the handler
    makes exactly one call, a stream shutdown whose flags are abort-send
    and abort-receive or-ed together, with error code 0. *)
Theorem StreamCallback_peer_abort
  (env : Env) (this : ThroughputServer) (StreamHandle : HQUIC)
  (Event : QUIC_STREAM_EVENT) (t : Trace) :
  StreamEventType Event = QUIC_STREAM_EVENT_PEER_SEND_ABORTED \/
  StreamEventType Event = QUIC_STREAM_EVENT_PEER_RECEIVE_ABORTED ->
  exists Flags,
    StreamCallback this StreamHandle env Event t =
      Some (QUIC_STATUS_SUCCESS, Event, t ++ [StreamShutdown StreamHandle Flags 0]) /\
    Flags = Z.lor QUIC_STREAM_SHUTDOWN_FLAG_ABORT_SEND
                  QUIC_STREAM_SHUTDOWN_FLAG_ABORT_RECEIVE /\
    forall n, Z.testbit Flags n =
              Z.testbit QUIC_STREAM_SHUTDOWN_FLAG_ABORT_SEND n ||
              Z.testbit QUIC_STREAM_SHUTDOWN_FLAG_ABORT_RECEIVE n.
Proof.
  intros Hty. eexists. rewrite StreamCallback_run.
  split; [destruct Hty as [-> | ->]; reflexivity|].
  split; [reflexivity|]. intros n. apply Z.lor_spec.
Qed.

(** C5. The stream handler calls stream-close on the shutdown-complete
    event, once, and on no other event; an event that is none of
    peer-send-aborted, peer-receive-aborted and shutdown-complete makes no
    call at all.  Over the events of one stream, of which exactly one is
    shutdown-complete, stream-close is called exactly once. *)
Theorem StreamCallback_closes_on_shutdown_complete_only
  (env : Env) (this : ThroughputServer) (StreamHandle : HQUIC) :
  (forall (Event : QUIC_STREAM_EVENT) (t : Trace),
     exists calls,
       StreamCallback this StreamHandle env Event t =
         Some (QUIC_STATUS_SUCCESS, Event, t ++ calls) /\
       (StreamEventType Event = QUIC_STREAM_EVENT_SHUTDOWN_COMPLETE ->
        calls = [StreamClose StreamHandle]) /\
       (StreamEventType Event <> QUIC_STREAM_EVENT_SHUTDOWN_COMPLETE ->
        count_calls any_StreamClose calls = 0%nat) /\
       (StreamEventType Event <> QUIC_STREAM_EVENT_PEER_SEND_ABORTED ->
        StreamEventType Event <> QUIC_STREAM_EVENT_PEER_RECEIVE_ABORTED ->
        StreamEventType Event <> QUIC_STREAM_EVENT_SHUTDOWN_COMPLETE ->
        calls = [])) /\
  (forall (events : list QUIC_STREAM_EVENT) (t : Trace),
     List.length (filter is_stream_shutdown_complete events) = 1%nat ->
     exists calls,
       deliver (StreamCallback this StreamHandle) events env t = Some (t ++ calls) /\
       count_calls any_StreamClose calls = 1%nat /\
       count_calls (is_StreamClose StreamHandle) calls = 1%nat).
Proof.
  split.
  - intros Event t. rewrite StreamCallback_run. eexists. split; [reflexivity|].
    destruct (StreamEventType Event); repeat split; intros; congruence || reflexivity.
  - intros events t Hone.
    destruct (deliver_StreamCallback env this StreamHandle events t)
      as (calls & Hrun & Hany & Hmine).
    exists calls. rewrite Hrun, Hany, Hmine, Hone. auto.
Qed.

(** C7. On a new-connection event the listener handler stores the shared
    security configuration in the event, installs the connection handler
    on the new connection and tries to disable 1-RTT encryption on it; when
    that [SetParam] call fails the handler writes a diagnostic message and
    nothing else, and it returns success either way. *)
Theorem ListenerCallback_new_connection
  (env : Env) (this : ThroughputServer) (ListenerHandle : HQUIC)
  (Event : QUIC_LISTENER_EVENT) (t : Trace) :
  ListenerEventType Event = QUIC_LISTENER_EVENT_NEW_CONNECTION ->
  let Conn := Connection (NEW_CONNECTION Event) in
  let install := SetCallbackHandler Conn ToConnectionCallback in
  let disable :=
    SetParam Conn QUIC_PARAM_LEVEL_CONNECTION
      QUIC_PARAM_CONN_DISABLE_1RTT_ENCRYPTION sizeof_BOOLEAN [TRUE] in
  exists Event' calls,
    ListenerCallback this ListenerHandle env Event t =
      Some (QUIC_STATUS_SUCCESS, Event', t ++ install :: disable :: calls) /\
    EventSecurityConfig (NEW_CONNECTION Event') = SecurityConfig this /\
    Connection (NEW_CONNECTION Event') = Conn /\
    ListenerEventType Event' = ListenerEventType Event /\
    (QUIC_FAILED (env (t ++ [install]) disable) = true ->
     calls = [WriteOutput SetParam_failed_text []]) /\
    (QUIC_FAILED (env (t ++ [install]) disable) = false -> calls = []).
Proof.
  intros Hty Conn install disable.
  rewrite ListenerCallback_run, Hty. cbv zeta. fold Conn install disable.
  do 2 eexists. split; [reflexivity|].
  do 3 (split; [first [reflexivity | exact Hty]|]).
  split; intros Hf; rewrite Hf; reflexivity.
Qed.

(** C8. Whatever the event, the listener callback, the connection callback
    and the stream callback return the success status; an event of a type
    the callback does not name makes no call and leaves the event as it
    was. *)
Theorem callbacks_return_success
  (env : Env) (this : ThroughputServer) (Handle : HQUIC) (t : Trace) :
  (forall Event : QUIC_LISTENER_EVENT,
     returned (ListenerCallback this Handle env Event t) = Some QUIC_STATUS_SUCCESS /\
     (ListenerEventType Event <> QUIC_LISTENER_EVENT_NEW_CONNECTION ->
      ListenerCallback this Handle env Event t = Some (QUIC_STATUS_SUCCESS, Event, t))) /\
  (forall Event : QUIC_CONNECTION_EVENT,
     returned (ConnectionCallback this Handle env Event t) = Some QUIC_STATUS_SUCCESS /\
     (ConnectionEventType Event <> QUIC_CONNECTION_EVENT_SHUTDOWN_COMPLETE ->
      ConnectionEventType Event <> QUIC_CONNECTION_EVENT_PEER_STREAM_STARTED ->
      ConnectionCallback this Handle env Event t = Some (QUIC_STATUS_SUCCESS, Event, t))) /\
  (forall Event : QUIC_STREAM_EVENT,
     returned (StreamCallback this Handle env Event t) = Some QUIC_STATUS_SUCCESS /\
     (StreamEventType Event <> QUIC_STREAM_EVENT_PEER_SEND_ABORTED ->
      StreamEventType Event <> QUIC_STREAM_EVENT_PEER_RECEIVE_ABORTED ->
      StreamEventType Event <> QUIC_STREAM_EVENT_SHUTDOWN_COMPLETE ->
      StreamCallback this Handle env Event t = Some (QUIC_STATUS_SUCCESS, Event, t))).
Proof.
  repeat split; intros.
  - rewrite ListenerCallback_run. now destruct (ListenerEventType Event).
  - rewrite ListenerCallback_run.
    destruct (ListenerEventType Event); [absurd_type | reflexivity].
  - now rewrite ConnectionCallback_run.
  - rewrite ConnectionCallback_run.
    destruct (ConnectionEventType Event); try absurd_type.
    now rewrite app_nil_r.
  - now rewrite StreamCallback_run.
  - rewrite StreamCallback_run.
    destruct (StreamEventType Event); try absurd_type.
    now rewrite app_nil_r.
Qed.

(** C10. [Wait] with a strictly positive timeout makes the bounded wait
    with that timeout; with a timeout of 0 or less it waits forever; it
    returns the success status in every case. *)
Theorem Wait_bounded_or_forever
  (env : Env) (this : ThroughputServer) (Timeout : Z) (t : Trace) :
  (0 < Timeout ->
   Wait Timeout env this t =
     Some (QUIC_STATUS_SUCCESS, this, t ++ [RefCount_Wait Timeout])) /\
  (Timeout <= 0 ->
   Wait Timeout env this t =
     Some (QUIC_STATUS_SUCCESS, this, t ++ [RefCount_WaitForever])) /\
  returned (Wait Timeout env this t) = Some QUIC_STATUS_SUCCESS.
Proof.
  rewrite Wait_run. split; [|split]; [intros Hpos | intros Hnonpos | reflexivity].
  - apply Z.ltb_lt in Hpos as ->. reflexivity.
  - apply Z.ltb_ge in Hnonpos as ->. reflexivity.
Qed.

(** C3, as amended.  [Wait] returns the success status whatever the
    tracker's wait reported: two runs that differ only in what the
    collaborators answer return the same status, so completion and timeout
    cannot be told apart from it. *)
Theorem Wait_status_hides_wait_outcome
  (env1 env2 : Env) (this : ThroughputServer) (Timeout : Z) (t : Trace) :
  returned (Wait Timeout env1 this t) = Some QUIC_STATUS_SUCCESS /\
  returned (Wait Timeout env1 this t) = returned (Wait Timeout env2 this t).
Proof.
  rewrite !Wait_run. split; reflexivity.
Qed.

(** C6. When the first argument asks for help, [Init] returns the
    invalid-parameter status; when the initialization of the security
    configuration fails, [Init] returns the status of that failure; and no
    run of [Init] starts the listener. *)
Theorem Init_failure_statuses
  (env : Env) (this : ThroughputServer) (argc : Z) (argv : list string) (t : Trace) :
  let help := WriteOutput help_text [THROUGHPUT_DEFAULT_PORT] in
  let init :=
    SecurityConfig_Initialize argc argv (Registration this) (SelfSignedConfig this) in
  (requests_help argc argv = true ->
   Init argc argv env this t =
     Some (QUIC_STATUS_INVALID_PARAMETER, this, t ++ [help])) /\
  (requests_help argc argv = false ->
   IsValid (Listener this) = true ->
   QUIC_FAILED (env t init) = true ->
   Init argc argv env this t =
     Some (env t init, parsed argc argv this, t ++ [init; help])) /\
  (forall status this' calls,
     Init argc argv env this t = Some (status, this', t ++ calls) ->
     In init calls ->
     QUIC_FAILED (env t init) = true ->
     status = env t init) /\
  (exists status this' calls,
     Init argc argv env this t = Some (status, this', t ++ calls) /\
     count_calls is_Listener_Start calls = 0%nat).
Proof.
  intros help init. rewrite Init_run. fold help init.
  split; [intros ->; reflexivity|].
  split; [intros -> -> ->; reflexivity|].
  split.
  - intros status this' calls Hrun Hin Hfailed. rewrite Hfailed in Hrun.
    destruct (requests_help argc argv); [|destruct (negb _)].
    + injection Hrun as _ _ Hcalls. apply app_inv_head in Hcalls. subst calls.
      destruct Hin as [Hin|[]]. discriminate Hin.
    + injection Hrun as _ _ Hcalls.
      rewrite <- (app_nil_r t) in Hcalls at 1.
      apply app_inv_head in Hcalls. subst calls. destruct Hin.
    + now injection Hrun as <- _ _.
  - destruct (requests_help argc argv); [|destruct (negb _); [|destruct (QUIC_FAILED _)]].
    + do 3 eexists. split; reflexivity.
    + exists (GetInitStatus (Listener this)), this, []. now rewrite app_nil_r.
    + do 3 eexists. split; reflexivity.
    + do 3 eexists. split; reflexivity.
Qed.

End Claims.

(** C9. A [completeItem()] on a tracker whose remaining count is 0 ends in
    the fatal abort; so does every sequence of operations with more
    [completeItem()] than [addItem()] calls; and as long as a sequence has
    not aborted the remaining count is not negative. *)
Theorem completeItem_underflow_aborts (ops : list CompletionTracker.op) :
  let run := CompletionTracker.run in
  let remaining := CompletionTracker.remaining in
  (forall s, remaining s = 0 ->
             CompletionTracker.completeItem s = CompletionTracker.FatalAbort) /\
  (CompletionTracker.adds ops < CompletionTracker.completes ops ->
   run ops CompletionTracker.configure = CompletionTracker.FatalAbort) /\
  (forall s, run ops CompletionTracker.configure = CompletionTracker.Running s ->
             0 <= remaining s /\
             remaining s = CompletionTracker.adds ops - CompletionTracker.completes ops /\
             (remaining s = 0 ->
              run (ops ++ [CompletionTracker.CompleteItem]) CompletionTracker.configure =
                CompletionTracker.FatalAbort)).
Proof.
  intros run remaining. split; [|split].
  - intros s Hzero. unfold CompletionTracker.completeItem.
    unfold remaining in Hzero. now rewrite Hzero.
  - intros Hmore. apply TrackerFacts.run_underflow; cbn; lia.
  - intros s Hrun. pose proof Hrun as Hinv.
    apply TrackerFacts.run_running in Hinv; [|cbn; lia].
    cbn [CompletionTracker.remaining CompletionTracker.configure] in Hinv.
    unfold remaining. repeat split; try lia.
    intros Hzero. unfold run in *. rewrite TrackerFacts.run_app, Hrun. cbn.
    unfold CompletionTracker.completeItem. now rewrite Hzero.
Qed.

(** * The claims at concrete inputs *)

(** C3 as stated fails: with a timeout of 100 the tracker's bounded wait
    may report completion or timeout, and no reading of the status [Wait]
    returns recovers which one it was. *)
Lemma Wait_return_does_not_tell_outcome :
  ~ exists decode : QUIC_STATUS -> bool,
      forall completed : bool,
        option_map decode
          (returned (@Wait example_headers 100 (env_const 0 completed) (example_server 3) []))
        = Some completed.
Proof.
  intros [decode Hdecode].
  pose proof (Hdecode true) as Htrue. pose proof (Hdecode false) as Hfalse.
  cbn in Htrue, Hfalse. congruence.
Qed.

(** Three connections configured, the listener binds: three items. *)
Lemma Start_registers_expected_items_witness :
  exists calls,
    @Start example_headers 4 99 (env_const 0 true) (example_server 3) [] =
      Some (0, example_server 3,
            [] ++ Listener_Start 0 4433 ToListenerCallback :: RefCount_Assign 99 :: calls) /\
    Z.of_nat (count_calls is_AddItem calls) = 3.
Proof.
  destruct (@Start_registers_expected_items example_headers
              (env_const 0 true) (example_server 3) 99 [] 4%nat)
    as (calls & Hrun & _ & Hpositive & _).
  - cbn. lia.
  - reflexivity.
  - cbn. lia.
  - exists calls. split; [exact Hrun | apply Hpositive; cbn; lia].
Defined.

(** A connection of a run with three expected connections shuts down. *)
Lemma ConnectionCallback_shutdown_complete_witness :
  exists calls,
    @ConnectionCallback example_headers (example_server 3) 7 (env_const 0 true)
      (connection_event QUIC_CONNECTION_EVENT_SHUTDOWN_COMPLETE 0) [] =
      Some (0, connection_event QUIC_CONNECTION_EVENT_SHUTDOWN_COMPLETE 0,
            [] ++ ConnectionClose 7 :: calls) /\
    calls = [RefCount_CompleteItem].
Proof.
  destruct (@ConnectionCallback_shutdown_complete example_headers
              (env_const 0 true) (example_server 3) 7
              (connection_event QUIC_CONNECTION_EVENT_SHUTDOWN_COMPLETE 0) [])
    as (calls & Hrun & _ & _ & _ & Hbounded).
  - reflexivity.
  - exists calls. split; [exact Hrun | apply Hbounded; cbn; lia].
Defined.

(** The peer aborts its receive direction of stream 7. *)
Lemma StreamCallback_peer_abort_witness :
  exists Flags,
    @StreamCallback example_headers (example_server 0) 7 (env_const 0 true)
      (stream_event QUIC_STREAM_EVENT_PEER_RECEIVE_ABORTED) [] =
      Some (0, stream_event QUIC_STREAM_EVENT_PEER_RECEIVE_ABORTED,
            [] ++ [StreamShutdown 7 Flags 0]) /\
    Flags = 6.
Proof.
  destruct (@StreamCallback_peer_abort example_headers
              (env_const 0 true) (example_server 0) 7
              (stream_event QUIC_STREAM_EVENT_PEER_RECEIVE_ABORTED) [])
    as (Flags & Hrun & HFlags & _).
  - right. reflexivity.
  - exists Flags. split; [exact Hrun | exact HFlags].
Defined.

(** A stream sees an event the handler does not name, then
    peer-receive-aborted, then shutdown-complete. *)
Lemma StreamCallback_closes_on_shutdown_complete_only_witness :
  exists calls,
    deliver (@StreamCallback example_headers (example_server 0) 7)
      [stream_event (QUIC_STREAM_EVENT_other 1);
       stream_event QUIC_STREAM_EVENT_PEER_RECEIVE_ABORTED;
       stream_event QUIC_STREAM_EVENT_SHUTDOWN_COMPLETE]
      (env_const 0 true) [] = Some ([] ++ calls) /\
    count_calls any_StreamClose calls = 1%nat /\
    count_calls (is_StreamClose 7) calls = 1%nat.
Proof.
  apply (proj2 (@StreamCallback_closes_on_shutdown_complete_only example_headers
                  (env_const 0 true) (example_server 0) 7)).
  reflexivity.
Defined.

(** [-help] as the first argument; and a certificate that cannot be
    loaded, status 5. *)
Lemma Init_failure_statuses_witness :
  @Init example_headers 1 ["-help"] (env_const 0 true) (example_server 0) [] =
    Some (22, example_server 0, [] ++ [WriteOutput help_text [4433]]) /\
  @Init example_headers 1 ["-thumbprint:00"] (env_const 5 true) (example_server 0) [] =
    Some (5, example_server 0,
          [] ++ [SecurityConfig_Initialize 1 ["-thumbprint:00"] 1 2;
                 WriteOutput help_text [4433]]).
Proof.
  split.
  - apply (proj1 (@Init_failure_statuses example_headers
                    (env_const 0 true) (example_server 0) 1 ["-help"] [])).
    reflexivity.
  - apply (proj1 (proj2 (@Init_failure_statuses example_headers
                           (env_const 5 true) (example_server 0) 1 ["-thumbprint:00"] [])));
      reflexivity.
Defined.

(** A new connection on which 1-RTT encryption cannot be disabled. *)
Lemma ListenerCallback_new_connection_witness :
  exists Event' calls,
    @ListenerCallback example_headers (example_server 0) 1 (env_const 5 true)
      (listener_event QUIC_LISTENER_EVENT_NEW_CONNECTION 9) [] =
      Some (0, Event',
            [] ++ SetCallbackHandler 9 ToConnectionCallback ::
                  SetParam 9 3 21 1 [1] :: calls) /\
    EventSecurityConfig (NEW_CONNECTION Event') = 3 /\
    calls = [WriteOutput SetParam_failed_text []].
Proof.
  destruct (@ListenerCallback_new_connection example_headers
              (env_const 5 true) (example_server 0) 1
              (listener_event QUIC_LISTENER_EVENT_NEW_CONNECTION 9) [])
    as (Event' & calls & Hrun & Hsec & _ & _ & Hfailed & _).
  - reflexivity.
  - exists Event', calls.
    split; [exact Hrun | split; [exact Hsec | apply Hfailed; reflexivity]].
Defined.

(** Event types none of the callbacks names. *)
Lemma callbacks_return_success_witness :
  @ListenerCallback example_headers (example_server 0) 1 (env_const 0 true)
    (listener_event (QUIC_LISTENER_EVENT_other 4) 9) [] =
    Some (0, listener_event (QUIC_LISTENER_EVENT_other 4) 9, []) /\
  @ConnectionCallback example_headers (example_server 0) 1 (env_const 0 true)
    (connection_event (QUIC_CONNECTION_EVENT_other 4) 9) [] =
    Some (0, connection_event (QUIC_CONNECTION_EVENT_other 4) 9, []) /\
  @StreamCallback example_headers (example_server 0) 1 (env_const 0 true)
    (stream_event (QUIC_STREAM_EVENT_other 4)) [] =
    Some (0, stream_event (QUIC_STREAM_EVENT_other 4), []).
Proof.
  pose proof (@callbacks_return_success example_headers
                (env_const 0 true) (example_server 0) 1 [])
    as (Hlistener & Hconnection & Hstream).
  split; [|split].
  - apply Hlistener. discriminate.
  - apply Hconnection; discriminate.
  - apply Hstream; discriminate.
Defined.

(** One item added, two completions. *)
Lemma completeItem_underflow_aborts_witness :
  CompletionTracker.run
    [CompletionTracker.AddItem; CompletionTracker.CompleteItem;
     CompletionTracker.CompleteItem]
    CompletionTracker.configure = CompletionTracker.FatalAbort.
Proof.
  apply (proj1 (proj2 (completeItem_underflow_aborts
                         [CompletionTracker.AddItem; CompletionTracker.CompleteItem;
                          CompletionTracker.CompleteItem]))).
  vm_compute. reflexivity.
Defined.

(** A timeout of 100, and a timeout of -1. *)
Lemma Wait_bounded_or_forever_witness :
  @Wait example_headers 100 (env_const 0 false) (example_server 3) [] =
    Some (0, example_server 3, [] ++ [RefCount_Wait 100]) /\
  @Wait example_headers (-1) (env_const 0 false) (example_server 3) [] =
    Some (0, example_server 3, [] ++ [RefCount_WaitForever]).
Proof.
  split.
  - apply (proj1 (@Wait_bounded_or_forever example_headers
                    (env_const 0 false) (example_server 3) 100 [])).
    lia.
  - apply (proj1 (proj2 (@Wait_bounded_or_forever example_headers
                           (env_const 0 false) (example_server 3) (-1) []))).
    lia.
Defined.

(** * Beyond the claims: whole runs *)

Lemma new_calls_app (t calls : Trace) : new_calls t (t ++ calls) = calls.
Proof.
  unfold new_calls. now rewrite skipn_app, skipn_all, Nat.sub_diag.
Qed.

Lemma count_calls_repeat_other (p : Call -> bool) (c : Call) (n : nat) :
  p c = false -> count_calls p (repeat c n) = 0%nat.
Proof.
  intros Hp. unfold count_calls.
  induction n as [|n IH]; cbn; [reflexivity | now rewrite Hp].
Qed.

Lemma count_deliveries_none (ds : list Delivery) :
  count_deliveries (fun _ => false) ds = 0%nat.
Proof.
  unfold count_deliveries. induction ds as [|d ds IH]; cbn; auto.
Qed.

Lemma deliver_app {S} (callback : M S QUIC_STATUS) (events1 events2 : list S) (env : Env) :
  forall t,
    deliver callback (events1 ++ events2) env t =
    match deliver callback events1 env t with
    | Some t' => deliver callback events2 env t'
    | None => None
    end.
Proof.
  induction events1 as [|Event rest IH]; intros t; cbn [deliver app]; [reflexivity|].
  destruct (callback env Event t) as [[[status Event'] t']|]; [apply IH | reflexivity].
Qed.

Section ServeFacts.
Context `{PerfHeaders}.
Variables (env : Env) (this : ThroughputServer).

(** The calls of one delivery, spelled out. *)
Lemma delivery_calls_eq (t : Trace) (d : Delivery) :
  delivery_calls this env t d =
  match d with
  | ListenerEvent _ Event =>
      match ListenerEventType Event with
      | QUIC_LISTENER_EVENT_NEW_CONNECTION =>
          let Conn := Connection (NEW_CONNECTION Event) in
          let install := SetCallbackHandler Conn ToConnectionCallback in
          let disable :=
            SetParam Conn QUIC_PARAM_LEVEL_CONNECTION
              QUIC_PARAM_CONN_DISABLE_1RTT_ENCRYPTION sizeof_BOOLEAN [TRUE] in
          install :: disable ::
            (if QUIC_FAILED (env (t ++ [install]) disable)
             then [WriteOutput SetParam_failed_text []] else [])
      | QUIC_LISTENER_EVENT_other _ => []
      end
  | ConnectionEvent Conn Event =>
      match ConnectionEventType Event with
      | QUIC_CONNECTION_EVENT_SHUTDOWN_COMPLETE =>
          ConnectionClose Conn ::
          (if 0 <? NumberOfConnections this then [RefCount_CompleteItem] else [])
      | QUIC_CONNECTION_EVENT_PEER_STREAM_STARTED =>
          [SetCallbackHandler (Stream (PEER_STREAM_STARTED Event)) ToStreamCallback]
      | QUIC_CONNECTION_EVENT_other _ => []
      end
  | StreamEvent Stream Event =>
      match StreamEventType Event with
      | QUIC_STREAM_EVENT_PEER_SEND_ABORTED
      | QUIC_STREAM_EVENT_PEER_RECEIVE_ABORTED =>
          [StreamShutdown Stream
             (Z.lor QUIC_STREAM_SHUTDOWN_FLAG_ABORT_SEND
                    QUIC_STREAM_SHUTDOWN_FLAG_ABORT_RECEIVE) 0]
      | QUIC_STREAM_EVENT_SHUTDOWN_COMPLETE => [StreamClose Stream]
      | QUIC_STREAM_EVENT_other _ => []
      end
  end.
Proof.
  unfold delivery_calls, handle_delivery, ListenerHandler, ConnectionHandler, StreamHandler.
  destruct d as [Handle Event | Conn Event | Stream Event].
  - rewrite ListenerCallback_run.
    destruct (ListenerEventType Event); cbn [option_map fst snd].
    + apply new_calls_app.
    + rewrite <- (app_nil_r t) at 2. apply new_calls_app.
  - rewrite ConnectionCallback_run. cbn [option_map fst snd]. apply new_calls_app.
  - rewrite StreamCallback_run. cbn [option_map fst snd]. apply new_calls_app.
Qed.

Lemma handle_delivery_run (t : Trace) (d : Delivery) :
  handle_delivery this d env t =
  Some (QUIC_STATUS_SUCCESS, t ++ delivery_calls this env t d).
Proof.
  rewrite delivery_calls_eq.
  unfold handle_delivery, ListenerHandler, ConnectionHandler, StreamHandler.
  destruct d as [Handle Event | Conn Event | Stream Event].
  - rewrite ListenerCallback_run.
    destruct (ListenerEventType Event); cbn [option_map fst snd];
      rewrite ?app_nil_r; reflexivity.
  - now rewrite ConnectionCallback_run.
  - now rewrite StreamCallback_run.
Qed.

Lemma serve_run (ds : list Delivery) :
  forall t : Trace,
    serve this ds env t =
    Some (repeat QUIC_STATUS_SUCCESS (List.length ds), t ++ serve_calls this env t ds).
Proof.
  induction ds as [|d rest IH]; intros t; cbn [serve serve_calls List.length repeat].
  - now rewrite app_nil_r.
  - now rewrite handle_delivery_run, IH, app_assoc.
Qed.

(** A kind of call made once by the deliveries that satisfy [pd] and by no
    other is made as often as there are such deliveries. *)
Lemma count_serve_calls (p : Call -> bool) (pd : Delivery -> bool) :
  (forall t d, count_calls p (delivery_calls this env t d) = if pd d then 1%nat else 0%nat) ->
  forall ds t, count_calls p (serve_calls this env t ds) = count_deliveries pd ds.
Proof.
  intros Hone. unfold count_deliveries.
  induction ds as [|d rest IH]; intros t; cbn [serve_calls filter]; [reflexivity|].
  rewrite count_calls_app, Hone, IH. now destruct (pd d).
Qed.

End ServeFacts.

(** Compute the count of one kind of call in the calls of one delivery. *)
Ltac count_delivery :=
  let t := fresh "t" in
  let d := fresh "d" in
  intros t d; rewrite delivery_calls_eq;
  destruct d as [? [[|?] [? ?]] | ? [[| |?] [?]] | ? [[| | |?]]];
  cbn -[Z.eqb Z.ltb];
  repeat match goal with
         | |- context [Z.eqb ?a ?b] => destruct (Z.eqb a b)
         | |- context [Z.ltb ?a ?b] => destruct (Z.ltb a b)
         | |- context [QUIC_FAILED ?x] => destruct (QUIC_FAILED x)
         end;
  reflexivity.

Section WholeRuns.
Context `{PerfHeaders}.

(** X6. Whatever the library delivers and in whatever order, every lambda
    returns success, and on each handle the server closes a connection as
    often as that connection's shutdown-complete was delivered, closes a
    stream as often as that stream's shutdown-complete was delivered, and
    shuts a stream down as often as a peer abort was delivered for it. *)
Theorem serve_closes_what_shut_down
  (env : Env) (this : ThroughputServer) (ds : list Delivery) (t : Trace) (h : HQUIC) :
  exists calls,
    serve this ds env t =
      Some (repeat QUIC_STATUS_SUCCESS (List.length ds), t ++ calls) /\
    count_calls (is_ConnectionClose h) calls =
      count_deliveries (is_connection_shutdown_of h) ds /\
    count_calls (is_StreamClose h) calls =
      count_deliveries (is_stream_shutdown_of h) ds /\
    count_calls (is_StreamShutdown h) calls =
      count_deliveries (is_stream_abort_of h) ds.
Proof.
  exists (serve_calls this env t ds). split; [apply serve_run|].
  repeat split; apply count_serve_calls; count_delivery.
Qed.

(** X7. No callback blocks or registers: whatever is delivered, the server
    makes no [RefCount.Wait] or [RefCount.WaitForever] call and none of the
    calls of [Init] and [Start]. *)
Theorem serve_never_waits_or_registers
  (env : Env) (this : ThroughputServer) (ds : list Delivery) (t : Trace) :
  exists statuses calls,
    serve this ds env t = Some (statuses, t ++ calls) /\
    count_calls is_wait calls = 0%nat /\
    count_calls is_startup calls = 0%nat.
Proof.
  exists (repeat QUIC_STATUS_SUCCESS (List.length ds)), (serve_calls this env t ds).
  split; [apply serve_run|].
  split; rewrite <- (count_deliveries_none ds); apply count_serve_calls; count_delivery.
Qed.

(** X8. The completions the callbacks report: with a positive connection
    count one per connection shutdown-complete delivered, however many
    those are; with a count of 0 none at all. *)
Theorem serve_completion_reports
  (env : Env) (this : ThroughputServer) (ds : list Delivery) (t : Trace) :
  exists statuses calls,
    serve this ds env t = Some (statuses, t ++ calls) /\
    count_calls is_CompleteItem calls =
      if 0 <? NumberOfConnections this
      then count_deliveries is_connection_shutdown ds
      else 0%nat.
Proof.
  exists (repeat QUIC_STATUS_SUCCESS (List.length ds)), (serve_calls this env t ds).
  split; [apply serve_run|].
  rewrite (count_serve_calls env this is_CompleteItem
             (fun d => (0 <? NumberOfConnections this) && is_connection_shutdown d))
    by count_delivery.
  destruct (0 <? NumberOfConnections this); cbn [andb].
  - reflexivity.
  - apply count_deliveries_none.
Qed.

(** X9. Admission has no limit: whatever the connection count and however
    many connections came before, the connection callback is installed and
    the 1-RTT parameter set on a connection once per new-connection event
    that carries it, and the stream callback is installed on a stream once
    per peer-stream-started event that carries it; the listener callback is
    never installed by a callback. *)
Theorem serve_installs_handlers
  (env : Env) (this : ThroughputServer) (ds : list Delivery) (t : Trace) (h : HQUIC) :
  exists statuses calls,
    serve this ds env t = Some (statuses, t ++ calls) /\
    count_calls (is_install_on h ToConnectionCallback) calls =
      count_deliveries (is_new_connection_of h) ds /\
    count_calls (is_SetParam_on h) calls =
      count_deliveries (is_new_connection_of h) ds /\
    count_calls (is_install_on h ToStreamCallback) calls =
      count_deliveries (is_stream_start_of h) ds /\
    count_calls (is_install_on h ToListenerCallback) calls = 0%nat.
Proof.
  exists (repeat QUIC_STATUS_SUCCESS (List.length ds)), (serve_calls this env t ds).
  split; [apply serve_run|].
  repeat split; try (apply count_serve_calls; count_delivery).
  rewrite <- (count_deliveries_none ds). apply count_serve_calls; count_delivery.
Qed.

End WholeRuns.

(** * Beyond the claims: start-up and lifecycles *)

Section LifecycleFacts.
Context `{PerfHeaders}.
Variables (env : Env) (this : ThroughputServer).

Lemma parsed_fields (argc : Z) (argv : list string) :
  let this' := parsed argc argv this in
  Registration this' = Registration this /\
  Listener this' = Listener this /\
  SelfSignedConfig this' = SelfSignedConfig this /\
  SecurityConfig this' = SecurityConfig this /\
  Port this' =
    match TryGetValue argc argv "port" with
    | Some v => v
    | None => Port this
    end /\
  NumberOfConnections this' =
    match TryGetValue argc argv "connections" with
    | Some v => v
    | None => NumberOfConnections this
    end.
Proof.
  unfold parsed.
  destruct (TryGetValue argc argv "port"), (TryGetValue argc argv "connections");
    cbn; auto 10.
Qed.

(** With a connection count that is not positive the loop is not entered,
    whatever the fuel. *)
Lemma Start_run_sentinel (fuel : nat) (StopEvent : Pointer) (t : Trace) :
  let bound := Listener_Start AF_UNSPEC (Port this) ToListenerCallback in
  QUIC_FAILED (env t bound) = false ->
  NumberOfConnections this <= 0 ->
  Start fuel StopEvent env this t =
  Some (QUIC_STATUS_SUCCESS, this,
        t ++ [bound; RefCount_Assign StopEvent; RefCount_AddItem]).
Proof.
  intros bound Hok HN. unfold Start. cbv [bind get call ret].
  fold bound. rewrite Hok.
  apply Z.ltb_ge in HN. rewrite HN. now norm_trace.
Qed.

(** Events of a stream before its shutdown-complete lead to abortive
    shutdowns of that stream and to nothing else. *)
Lemma deliver_open_stream (StreamHandle : HQUIC) (events : list QUIC_STREAM_EVENT) :
  Forall (fun Event => is_stream_shutdown_complete Event = false) events ->
  forall t : Trace,
  exists calls,
    deliver (StreamCallback this StreamHandle) events env t = Some (t ++ calls) /\
    Forall (eq (StreamShutdown StreamHandle
                  (Z.lor QUIC_STREAM_SHUTDOWN_FLAG_ABORT_SEND
                         QUIC_STREAM_SHUTDOWN_FLAG_ABORT_RECEIVE) 0)) calls.
Proof.
  induction 1 as [|Event rest Hopen _ IH]; intros t; cbn [deliver].
  - exists []. now rewrite app_nil_r.
  - rewrite StreamCallback_run.
    match goal with |- context [t ++ ?new] => set (now := new) end.
    destruct (IH (t ++ now)) as (calls & Hrun & Hcalls).
    exists (now ++ calls). rewrite Hrun, app_assoc. split; [reflexivity|].
    apply Forall_app. split; [|exact Hcalls]. subst now.
    destruct Event as [[ | | | tag]]; try discriminate Hopen; repeat constructor.
Qed.

(** Events of a connection before its shutdown-complete install the
    stream callback on the streams that start and do nothing else. *)
Lemma deliver_open_connection (Conn : HQUIC) (events : list QUIC_CONNECTION_EVENT) :
  Forall (fun Event =>
            ConnectionEventType Event <> QUIC_CONNECTION_EVENT_SHUTDOWN_COMPLETE) events ->
  forall t : Trace,
    deliver (ConnectionCallback this Conn) events env t =
    Some (t ++ map (fun Event =>
                      SetCallbackHandler (Stream (PEER_STREAM_STARTED Event)) ToStreamCallback)
                 (filter is_peer_stream_started events)).
Proof.
  induction 1 as [|Event rest Hopen _ IH]; intros t; cbn [deliver filter map].
  - now rewrite app_nil_r.
  - rewrite ConnectionCallback_run, IH. unfold is_peer_stream_started at 2.
    destruct (ConnectionEventType Event); try absurd_type; cbn; norm_trace; reflexivity.
Qed.

End LifecycleFacts.

Section Lifecycles.
Context `{PerfHeaders}.

(** X1. When [Listener.Start] fails, [Start] returns the listener's status
    after that one call, whatever the fuel: the server is left as it was
    and [RefCount] is neither assigned nor given an item. *)
Theorem Start_bind_failure_propagates
  (env : Env) (this : ThroughputServer) (StopEvent : Pointer) (t : Trace) (fuel : nat) :
  let bound := Listener_Start AF_UNSPEC (Port this) ToListenerCallback in
  QUIC_FAILED (env t bound) = true ->
  exists calls,
    Start fuel StopEvent env this t = Some (env t bound, this, t ++ calls) /\
    calls = [bound] /\
    count_calls is_RefCount_call calls = 0%nat.
Proof.
  intros bound Hfailed. exists [bound].
  split; [now apply Start_run_bind_failed | split; reflexivity].
Qed.

(** X2. When help is not asked for and the listener is not valid, [Init]
    returns the listener's init status at once: no argument is read into
    the server, the security configuration is not initialized and nothing
    is printed. *)
Theorem Init_listener_invalid
  (env : Env) (this : ThroughputServer) (argc : Z) (argv : list string) (t : Trace) :
  requests_help argc argv = false ->
  IsValid (Listener this) = false ->
  Init argc argv env this t = Some (GetInitStatus (Listener this), this, t).
Proof.
  intros Hhelp Hvalid. now rewrite Init_run, Hhelp, Hvalid.
Qed.



(** X5. [Init] followed by [Start]: after a successful [Init] the listener
    is started on the wildcard family and on the port found in the
    arguments (the server's former port when there is none), and as many
    items are registered as the arguments ask connections for (as the
    former count says when they do not), one item when that is 0. *)
Theorem Init_then_Start
  (env : Env) (this : ThroughputServer) (argc : Z) (argv : list string)
  (StopEvent : Pointer) (t : Trace) (fuel : nat) :
  let p := match TryGetValue argc argv "port" with
           | Some v => v
           | None => Port this
           end in
  let n := match TryGetValue argc argv "connections" with
           | Some v => v
           | None => NumberOfConnections this
           end in
  let init :=
    SecurityConfig_Initialize argc argv (Registration this) (SelfSignedConfig this) in
  let bound := Listener_Start AF_UNSPEC p ToListenerCallback in
  requests_help argc argv = false ->
  IsValid (Listener this) = true ->
  QUIC_FAILED (env t init) = false ->
  QUIC_FAILED (env (t ++ [init]) bound) = false ->
  0 <= n < 2 ^ 32 ->
  (Z.to_nat n < fuel)%nat ->
  exists this',
    Init argc argv env this t = Some (QUIC_STATUS_SUCCESS, this', t ++ [init]) /\
    Start fuel StopEvent env this' (t ++ [init]) =
      Some (QUIC_STATUS_SUCCESS, this',
            t ++ init :: bound :: RefCount_Assign StopEvent ::
                 repeat RefCount_AddItem (if 0 <? n then Z.to_nat n else 1%nat)).
Proof.
  intros p n init bound Hhelp Hvalid Hinit Hbound Hn Hfuel.
  exists (parsed argc argv this).
  destruct (parsed_fields this argc argv) as (_ & _ & _ & _ & HP & HN).
  fold p in HP. fold n in HN.
  split.
  - rewrite Init_run, Hhelp, Hvalid. cbn [negb]. fold init. now rewrite Hinit.
  - rewrite Start_run_bound; rewrite ?HP, ?HN; fold bound; try assumption.
    now norm_trace.
Qed.

(** X10. A bounded run: after a [Start] with a positive connection count N
    and any deliveries, the server has added N items and completed one per
    connection shutdown-complete delivered; completions equal additions
    exactly when N connections have shut down. *)
Theorem bounded_run_ledger
  (env : Env) (this : ThroughputServer) (StopEvent : Pointer)
  (ds : list Delivery) (t : Trace) (fuel : nat) :
  let N := NumberOfConnections this in
  let bound := Listener_Start AF_UNSPEC (Port this) ToListenerCallback in
  0 < N < 2 ^ 32 ->
  QUIC_FAILED (env t bound) = false ->
  (Z.to_nat N < fuel)%nat ->
  exists t1 statuses calls,
    Start fuel StopEvent env this t = Some (QUIC_STATUS_SUCCESS, this, t1) /\
    serve this ds env t1 = Some (statuses, t ++ calls) /\
    Z.of_nat (count_calls is_AddItem calls) = N /\
    count_calls is_CompleteItem calls = count_deliveries is_connection_shutdown ds /\
    (count_calls is_CompleteItem calls = count_calls is_AddItem calls <->
     Z.of_nat (count_deliveries is_connection_shutdown ds) = N).
Proof.
  intros N bound HN Hok Hfuel.
  pose proof (Start_run_bound env this fuel StopEvent t Hok) as Hstart.
  fold N bound in Hstart. rewrite Hstart by (assumption || lia).
  assert (Hpos : (0 <? N) = true) by (apply Z.ltb_lt; lia).
  rewrite Hpos.
  set (setup := bound :: RefCount_Assign StopEvent :: repeat RefCount_AddItem (Z.to_nat N)).
  exists (t ++ setup), (repeat QUIC_STATUS_SUCCESS (List.length ds)),
    (setup ++ serve_calls this env (t ++ setup) ds).
  split; [reflexivity|]. split; [now rewrite serve_run, app_assoc|].
  assert (Hadd : count_calls is_AddItem (setup ++ serve_calls this env (t ++ setup) ds)
                 = Z.to_nat N).
  { rewrite count_calls_app.
    rewrite (count_serve_calls env this is_AddItem (fun _ => false)) by count_delivery.
    rewrite count_deliveries_none. subst setup.
    change (count_calls is_AddItem (repeat RefCount_AddItem (Z.to_nat N)) + 0
            = Z.to_nat N)%nat.
    rewrite count_calls_repeat_AddItem. lia. }
  assert (Hdone : count_calls is_CompleteItem (setup ++ serve_calls this env (t ++ setup) ds)
                  = count_deliveries is_connection_shutdown ds).
  { rewrite count_calls_app.
    rewrite (count_serve_calls env this is_CompleteItem
               (fun d => (0 <? NumberOfConnections this) && is_connection_shutdown d))
      by count_delivery.
    fold N. rewrite Hpos. cbn [andb]. subst setup.
    change (count_calls is_CompleteItem (repeat RefCount_AddItem (Z.to_nat N)) +
            count_deliveries (fun d => is_connection_shutdown d) ds
            = count_deliveries is_connection_shutdown ds)%nat.
    now rewrite count_calls_repeat_other. }
  rewrite Hadd, Hdone. repeat split; lia.
Qed.

(** X11. An unbounded run: after a [Start] with a connection count of 0
    the server has added one item, and whatever is delivered afterwards it
    never completes one. *)
Theorem unbounded_run_sentinel
  (env : Env) (this : ThroughputServer) (StopEvent : Pointer)
  (ds : list Delivery) (t : Trace) (fuel : nat) :
  let bound := Listener_Start AF_UNSPEC (Port this) ToListenerCallback in
  NumberOfConnections this = 0 ->
  QUIC_FAILED (env t bound) = false ->
  exists t1 statuses calls,
    Start fuel StopEvent env this t = Some (QUIC_STATUS_SUCCESS, this, t1) /\
    serve this ds env t1 = Some (statuses, t ++ calls) /\
    count_calls is_AddItem calls = 1%nat /\
    count_calls is_CompleteItem calls = 0%nat.
Proof.
  intros bound HN Hok.
  pose proof (Start_run_sentinel env this fuel StopEvent t Hok) as Hstart.
  fold bound in Hstart. rewrite Hstart by lia.
  set (setup := [bound; RefCount_Assign StopEvent; RefCount_AddItem]).
  exists (t ++ setup), (repeat QUIC_STATUS_SUCCESS (List.length ds)),
    (setup ++ serve_calls this env (t ++ setup) ds).
  split; [reflexivity|]. split; [now rewrite serve_run, app_assoc|].
  rewrite !count_calls_app.
  rewrite (count_serve_calls env this is_AddItem (fun _ => false)) by count_delivery.
  rewrite (count_serve_calls env this is_CompleteItem
             (fun d => (0 <? NumberOfConnections this) && is_connection_shutdown d))
    by count_delivery.
  rewrite HN. cbn [Z.ltb Z.compare andb]. rewrite !count_deliveries_none.
  split; reflexivity.
Qed.

(** X12. A stream whose shutdown-complete is its last event and its only
    shutdown-complete: stream-close is the last call the handler makes,
    and every call before it is the abortive shutdown of that stream, so
    the handle is not used once it is closed. *)
Theorem stream_close_is_last_call
  (env : Env) (this : ThroughputServer) (StreamHandle : HQUIC)
  (events : list QUIC_STREAM_EVENT) (last : QUIC_STREAM_EVENT) (t : Trace) :
  Forall (fun Event => is_stream_shutdown_complete Event = false) events ->
  StreamEventType last = QUIC_STREAM_EVENT_SHUTDOWN_COMPLETE ->
  exists calls,
    deliver (StreamCallback this StreamHandle) (events ++ [last]) env t =
      Some (t ++ calls ++ [StreamClose StreamHandle]) /\
    Forall (eq (StreamShutdown StreamHandle
                  (Z.lor QUIC_STREAM_SHUTDOWN_FLAG_ABORT_SEND
                         QUIC_STREAM_SHUTDOWN_FLAG_ABORT_RECEIVE) 0)) calls.
Proof.
  intros Hopen Hlast.
  destruct (deliver_open_stream env this StreamHandle events Hopen t)
    as (calls & Hrun & Hcalls).
  exists calls. split; [|exact Hcalls].
  rewrite deliver_app, Hrun. cbn [deliver].
  now rewrite StreamCallback_run, Hlast, app_assoc.
Qed.

(** X13. A connection whose shutdown-complete is its last event and its
    only shutdown-complete: before it the handler installs the stream
    callback on each stream that starts, in order, and does nothing else;
    then it closes the connection and, with a positive connection count,
    reports the completion after the close. *)
Theorem connection_close_then_completion
  (env : Env) (this : ThroughputServer) (Conn : HQUIC)
  (events : list QUIC_CONNECTION_EVENT) (last : QUIC_CONNECTION_EVENT) (t : Trace) :
  Forall (fun Event =>
            ConnectionEventType Event <> QUIC_CONNECTION_EVENT_SHUTDOWN_COMPLETE) events ->
  ConnectionEventType last = QUIC_CONNECTION_EVENT_SHUTDOWN_COMPLETE ->
  deliver (ConnectionCallback this Conn) (events ++ [last]) env t =
  Some (t ++ map (fun Event =>
                    SetCallbackHandler (Stream (PEER_STREAM_STARTED Event)) ToStreamCallback)
               (filter is_peer_stream_started events)
          ++ ConnectionClose Conn ::
             (if 0 <? NumberOfConnections this then [RefCount_CompleteItem] else [])).
Proof.
  intros Hopen Hlast.
  rewrite deliver_app, deliver_open_connection by exact Hopen. cbn [deliver].
  now rewrite ConnectionCallback_run, Hlast, app_assoc.
Qed.

(** X14. What the collaborators answer does not steer the callbacks: the
    connection and the stream callback behave the same under any two
    environments, so a failed [StreamShutdown] is neither reported nor
    retried, and the listener callback depends on them only through
    whether [SetParam] failed. *)
Theorem callbacks_ignore_call_results
  (env1 env2 : Env) (this : ThroughputServer) (Handle : HQUIC) (t : Trace) :
  (forall Event : QUIC_CONNECTION_EVENT,
     ConnectionCallback this Handle env1 Event t =
     ConnectionCallback this Handle env2 Event t) /\
  (forall Event : QUIC_STREAM_EVENT,
     StreamCallback this Handle env1 Event t =
     StreamCallback this Handle env2 Event t) /\
  (forall Event : QUIC_LISTENER_EVENT,
     let Conn := Connection (NEW_CONNECTION Event) in
     let install := SetCallbackHandler Conn ToConnectionCallback in
     let disable :=
       SetParam Conn QUIC_PARAM_LEVEL_CONNECTION
         QUIC_PARAM_CONN_DISABLE_1RTT_ENCRYPTION sizeof_BOOLEAN [TRUE] in
     QUIC_FAILED (env1 (t ++ [install]) disable) =
     QUIC_FAILED (env2 (t ++ [install]) disable) ->
     ListenerCallback this Handle env1 Event t =
     ListenerCallback this Handle env2 Event t).
Proof.
  split; [|split].
  - intros Event. now rewrite !ConnectionCallback_run.
  - intros Event. now rewrite !StreamCallback_run.
  - intros Event Conn install disable Hsame. rewrite !ListenerCallback_run.
    destruct (ListenerEventType Event); [|reflexivity].
    cbv zeta. fold Conn install disable. now rewrite Hsame.
Qed.

(** X15. [Init] takes the help path, printing the help text and nothing
    else, exactly when [argc] is positive and [argv[0]] is the [?] or the
    [help] argument: with [argc] at most 0, or with help asked for in a
    later argument only, it goes on to the listener and the security
    configuration. *)
Theorem Init_help_path
  (env : Env) (this : ThroughputServer) (argc : Z) (argv : list string) (t : Trace) :
  let help := WriteOutput help_text [THROUGHPUT_DEFAULT_PORT] in
  (exists status this',
     Init argc argv env this t = Some (status, this', t ++ [help])) <->
  0 < argc /\
  (IsArg (nth 0 argv "") "?" = true \/ IsArg (nth 0 argv "") "help" = true).
Proof.
  intros help. rewrite Init_run. fold help. unfold requests_help.
  rewrite <- Z.ltb_lt, <- orb_true_iff, <- andb_true_iff.
  destruct (_ && _).
  - split; [reflexivity|]. intros _. now do 2 eexists.
  - split; [|discriminate]. intros (status & this' & Hrun). exfalso.
    destruct (negb _); [|destruct (QUIC_FAILED _)];
      injection Hrun as _ _ Hcalls.
    + rewrite <- (app_nil_r t) in Hcalls at 1.
      apply app_inv_head in Hcalls. discriminate.
    + apply app_inv_head in Hcalls. discriminate.
    + apply app_inv_head in Hcalls. discriminate.
Qed.

End Lifecycles.

(** * Whole runs and lifecycles at concrete inputs *)

(** The port is taken: [Listener.Start] answers status 5. *)
Lemma Start_bind_failure_propagates_witness :
  exists calls,
    @Start example_headers 0 99 (env_const 5 true) (example_server 3) [] =
      Some (5, example_server 3, [] ++ calls) /\
    calls = [Listener_Start 0 4433 ToListenerCallback] /\
    count_calls is_RefCount_call calls = 0%nat.
Proof.
  apply (@Start_bind_failure_propagates example_headers
           (env_const 5 true) (example_server 3) 99 [] 0%nat).
  reflexivity.
Defined.

(** A listener whose construction failed with status 7. *)
Lemma Init_listener_invalid_witness :
  let this :=
    {| Registration := 1;
       Listener := {| IsValid := false; GetInitStatus := 7 |};
       SelfSignedConfig := 2;
       SecurityConfig := 3;
       Port := 4433;
       NumberOfConnections := 0 |} in
  @Init example_headers 1 ["-port:5000"] (env_const 0 true) this [] = Some (7, this, []).
Proof.
  intros this.
  apply (@Init_listener_invalid example_headers (env_const 0 true) this 1 ["-port:5000"] []);
    reflexivity.
Defined.



(** Port 5000 and two connections on the command line. *)
Lemma Init_then_Start_witness :
  exists this',
    @Init (example_headers_args (Some 5000) (Some 2)) 2 ["-port:5000"; "-connections:2"]
      (env_const 0 true) (example_server 0) [] =
      Some (0, this', [] ++ [SecurityConfig_Initialize 2 ["-port:5000"; "-connections:2"] 1 2]) /\
    @Start (example_headers_args (Some 5000) (Some 2)) 3 99 (env_const 0 true) this'
      ([] ++ [SecurityConfig_Initialize 2 ["-port:5000"; "-connections:2"] 1 2]) =
      Some (0, this',
            [] ++ SecurityConfig_Initialize 2 ["-port:5000"; "-connections:2"] 1 2 ::
                  Listener_Start 0 5000 ToListenerCallback :: RefCount_Assign 99 ::
                  repeat RefCount_AddItem 2).
Proof.
  apply (@Init_then_Start (example_headers_args (Some 5000) (Some 2))
           (env_const 0 true) (example_server 0) 2 ["-port:5000"; "-connections:2"]
           99 [] 3%nat); try reflexivity.
  - cbn. lia.
  - cbn. lia.
Defined.

(** Two connections expected, two accepted and shut down. *)
Lemma bounded_run_ledger_witness :
  exists t1 statuses calls,
    @Start example_headers 3 99 (env_const 0 true) (example_server 2) [] =
      Some (0, example_server 2, t1) /\
    @serve example_headers (example_server 2) example_deliveries (env_const 0 true) t1 =
      Some (statuses, [] ++ calls) /\
    count_calls is_CompleteItem calls = count_calls is_AddItem calls.
Proof.
  destruct (@bounded_run_ledger example_headers (env_const 0 true) (example_server 2) 99
              example_deliveries [] 3%nat)
    as (t1 & statuses & calls & Hstart & Hserve & _ & _ & Hbalance).
  - cbn. lia.
  - reflexivity.
  - cbn. lia.
  - exists t1, statuses, calls.
    split; [exact Hstart | split; [exact Hserve | apply Hbalance; reflexivity]].
Defined.

(** No connection count: two connections come and go, the sentinel stays. *)
Lemma unbounded_run_sentinel_witness :
  exists t1 statuses calls,
    @Start example_headers 0 99 (env_const 0 true) (example_server 0) [] =
      Some (0, example_server 0, t1) /\
    @serve example_headers (example_server 0) example_deliveries (env_const 0 true) t1 =
      Some (statuses, [] ++ calls) /\
    count_calls is_AddItem calls = 1%nat /\
    count_calls is_CompleteItem calls = 0%nat.
Proof.
  apply (@unbounded_run_sentinel example_headers (env_const 0 true) (example_server 0) 99
           example_deliveries [] 0%nat); reflexivity.
Defined.

(** An unnamed event, a peer abort, then shutdown-complete on stream 7. *)
Lemma stream_close_is_last_call_witness :
  exists calls,
    deliver (@StreamCallback example_headers (example_server 0) 7)
      ([stream_event (QUIC_STREAM_EVENT_other 1);
        stream_event QUIC_STREAM_EVENT_PEER_SEND_ABORTED]
       ++ [stream_event QUIC_STREAM_EVENT_SHUTDOWN_COMPLETE])
      (env_const 0 true) [] = Some ([] ++ calls ++ [StreamClose 7]) /\
    Forall (eq (StreamShutdown 7 (Z.lor 2 4) 0)) calls.
Proof.
  apply (@stream_close_is_last_call example_headers (env_const 0 true) (example_server 0) 7
           [stream_event (QUIC_STREAM_EVENT_other 1);
            stream_event QUIC_STREAM_EVENT_PEER_SEND_ABORTED]
           (stream_event QUIC_STREAM_EVENT_SHUTDOWN_COMPLETE) []).
  - repeat constructor.
  - reflexivity.
Defined.

(** Connection 10 of a bounded run: a stream starts, then the connection
    shuts down. *)
Lemma connection_close_then_completion_witness :
  deliver (@ConnectionCallback example_headers (example_server 2) 10)
    ([connection_event QUIC_CONNECTION_EVENT_PEER_STREAM_STARTED 11;
      connection_event (QUIC_CONNECTION_EVENT_other 0) 0]
     ++ [connection_event QUIC_CONNECTION_EVENT_SHUTDOWN_COMPLETE 0])
    (env_const 0 true) [] =
  Some ([SetCallbackHandler 11 ToStreamCallback; ConnectionClose 10; RefCount_CompleteItem]).
Proof.
  apply (@connection_close_then_completion example_headers (env_const 0 true)
           (example_server 2) 10
           [connection_event QUIC_CONNECTION_EVENT_PEER_STREAM_STARTED 11;
            connection_event (QUIC_CONNECTION_EVENT_other 0) 0]
           (connection_event QUIC_CONNECTION_EVENT_SHUTDOWN_COMPLETE 0) []).
  - repeat constructor; discriminate.
  - reflexivity.
Defined.

(** A [StreamShutdown] that fails with status 5 and one that succeeds. *)
Lemma callbacks_ignore_call_results_witness :
  @StreamCallback example_headers (example_server 0) 7 (env_const 5 true)
    (stream_event QUIC_STREAM_EVENT_PEER_SEND_ABORTED) [] =
  @StreamCallback example_headers (example_server 0) 7 (env_const 0 true)
    (stream_event QUIC_STREAM_EVENT_PEER_SEND_ABORTED) [] /\
  @ListenerCallback example_headers (example_server 0) 1 (env_const 0 true)
    (listener_event QUIC_LISTENER_EVENT_NEW_CONNECTION 9) [] =
  @ListenerCallback example_headers (example_server 0) 1 (env_const 0 false)
    (listener_event QUIC_LISTENER_EVENT_NEW_CONNECTION 9) [].
Proof.
  split.
  - apply (proj1 (proj2 (@callbacks_ignore_call_results example_headers
                           (env_const 5 true) (env_const 0 true) (example_server 0) 7 []))).
  - apply (proj2 (proj2 (@callbacks_ignore_call_results example_headers
                           (env_const 0 true) (env_const 0 false) (example_server 0) 1 []))).
    reflexivity.
Defined.

(** Help asked for after another argument is not a help request. *)
Lemma Init_help_path_witness :
  ~ exists status this',
      @Init example_headers 2 ["-port:1"; "-help"] (env_const 0 true) (example_server 0) [] =
        Some (status, this', [] ++ [WriteOutput help_text [4433]]).
Proof.
  intros Hrun.
  apply (proj1 (@Init_help_path example_headers (env_const 0 true) (example_server 0)
                  2 ["-port:1"; "-help"] [])) in Hrun.
  destruct Hrun as [_ [Hq | Hhelp]]; discriminate.
Defined.
